(** * A shallow embedding of opentopodata/backend.py

    The elevation lookup engine: [_reproject_latlons],
    [_validate_points_lie_within_raster], [_get_elevation_from_path] and
    [get_elevation].

    Floating-point numbers (numpy float64) are kept abstract: the model is
    parametrised by a type [R] with the operations the source uses on it
    (class [Num]).  The raster engine (rasterio), the projection library
    (pyproj) and the dataset configuration are collaborators passed in as
    records of functions.  Python exceptions are the [Err] branch of a small
    error monad. *)

From Stdlib Require Import String List ZArith Bool Lia QArith Permutation.
Import ListNotations.
Local Open Scope nat_scope.

(** ** Python exceptions and the error monad *)

(** The text of an [InputError]: the source formats it with [str.format];
    the model keeps the format and the formatted values apart. *)
Inductive Msg (R : Type) : Type :=
| InvalidProjection                      (* "Dataset has invalid projection." *)
| LatitudeOutside (lat lon : R)          (* "Location '{},{}' has latitude outside of raster bounds" *)
| LongitudeOutside (lat lon : R)         (* "Location '{},{}' has longitude outside of raster bounds" *)
| OutsideDatasetBounds (lat lon : R).    (* "Point '{},{}' is outside dataset bounds." *)
Arguments InvalidProjection {R}.
Arguments LatitudeOutside {R} lat lon.
Arguments LongitudeOutside {R} lat lon.
Arguments OutsideDatasetBounds {R} lat lon.

Inductive Exc (R : Type) : Type :=
| InputError (m : Msg R)
| IndexError            (* out-of-range list / array subscript *)
| ValueError            (* np.argmax of an empty array *)
| CRSError              (* pyproj does not know the EPSG code *)
| RasterioIOError       (* rasterio.open fails *)
| RasterioError         (* f.read raises: rasterio's own errors, among them
                           AttributeError for resampling=None in a boundless
                           read, and I/O or decode errors *)
| TypeError.            (* an order comparison with None *)
Arguments InputError {R} m.
Arguments IndexError {R}.
Arguments ValueError {R}.
Arguments CRSError {R}.
Arguments RasterioIOError {R}.
Arguments RasterioError {R}.
Arguments TypeError {R}.

Inductive result (R A : Type) : Type :=
| Ok (a : A)
| Err (e : Exc R).
Arguments Ok {R A} a.
Arguments Err {R A} e.

Definition bind {R A B} (m : result R A) (k : A -> result R B) : result R B :=
  match m with
  | Ok a => k a
  | Err e => Err e
  end.

Notation "'let*' x ':=' m 'in' k" := (bind m (fun x => k))
  (at level 200, x name, m at level 100, k at level 200).

(** Python subscript [l[i]] for a non-negative [i]. *)
Definition getitem {R A} (l : list A) (i : nat) : result R A :=
  match nth_error l i with
  | Some a => Ok a
  | None => Err IndexError
  end.

(** numpy fancy indexing [arr[indices]]. *)
Fixpoint take_indices {R A} (l : list A) (idx : list nat) : result R (list A) :=
  match idx with
  | [] => Ok []
  | i :: rest => let* a := getitem l i in
                 let* t := take_indices l rest in
                 Ok (a :: t)
  end.

(** Python list item assignment [l[i] = v]. *)
Fixpoint setitem {R A} (l : list A) (i : nat) (v : A) : result R (list A) :=
  match l, i with
  | [], _ => Err IndexError
  | _ :: t, O => Ok (v :: t)
  | x :: t, S j => let* t' := setitem t j v in Ok (x :: t')
  end.

(** ** Numbers *)

(** The operations of numpy float64 used by the source. *)
Class Num (R : Type) := {
  add : R -> R -> R;          (* a + b *)
  sub : R -> R -> R;          (* a - b *)
  half : R -> R;              (* a / 2 *)
  le : R -> R -> bool;        (* a <= b *)
  lt : R -> R -> bool;        (* a < b *)
  of_Z : Z -> R;              (* int -> float *)
  point_five : R;             (* 0.5 *)
  clip : R -> R -> R -> R;    (* np.clip(a, lo, hi) *)
  nan : R                     (* np.nan *)
}.

Section Backend.
Context {R : Type} `{Num R}.

(** Python's builtin [min(a, b)]: [a] unless [b < a]. *)
Definition py_min (a b : R) : R := if lt b a then b else a.
(** Python's builtin [max(a, b)]: [a] unless [b > a]. *)
Definition py_max (a b : R) : R := if lt a b then b else a.

(** ** _reproject_latlons *)

Definition WGS84_LATLON_EPSG : Z := 4326.

(** pyproj: [Proj(init="EPSG:n")] either fails or gives a point map
    [(lon, lat) -> (x, y)]. *)
Definition Pyproj := Z -> option (R -> R -> R * R).

Definition _reproject_latlons (proj : Pyproj) (lats lons : list R) (epsg : Z)
  : result R (list R * list R) :=
  if Z.eqb epsg WGS84_LATLON_EPSG then Ok (lons, lats)
  else if negb ((1024 <=? epsg) && (epsg <=? 32767))%Z
  then Err (InputError InvalidProjection)
  else match proj epsg with
       | None => Err CRSError
       | Some projection =>
           let xy := map (fun '(lon, lat) => projection lon lat) (combine lons lats) in
           Ok (map fst xy, map snd xy)
       end.

(** ** _validate_points_lie_within_raster *)

(** rasterio's [BoundingBox(left, bottom, right, top)]. *)
Record BoundingBox := {
  left : R; bottom : R; right : R; top : R
}.

(** [np.argmax] on a boolean array: the index of the first [True], [0] when
    there is none, ValueError on an empty array. *)
Fixpoint first_true (l : list bool) : option nat :=
  match l with
  | [] => None
  | b :: t => if b then Some 0 else option_map S (first_true t)
  end.

Definition argmax (l : list bool) : result R nat :=
  match l with
  | [] => Err ValueError
  | _ => Ok (match first_true l with Some i => i | None => 0 end)
  end.

(** Python's [all] on a boolean array. *)
Definition py_all (l : list bool) : bool := forallb (fun b => b) l.

Definition _validate_points_lie_within_raster (xs ys lats lons : list R)
  (bounds : BoundingBox) (res : R * R) : result R unit :=
  let x_min := add (py_min bounds.(left) bounds.(right)) (half (fst res)) in
  let x_max := sub (py_max bounds.(left) bounds.(right)) (half (fst res)) in
  let y_min := add (py_min bounds.(top) bounds.(bottom)) (half (snd res)) in
  let y_max := sub (py_max bounds.(top) bounds.(bottom)) (half (snd res)) in
  let x_in_bounds := map (fun x => le x_min x && le x x_max) xs in
  let y_in_bounds := map (fun y => le y_min y && le y y_max) ys in
  if negb (py_all y_in_bounds) then
    let* i_oob := argmax y_in_bounds in
    let* lat := getitem lats i_oob in
    let* lon := getitem lons i_oob in
    Err (InputError (LatitudeOutside lat lon))
  else if negb (py_all x_in_bounds) then
    let* i_oob := argmax x_in_bounds in
    let* lat := getitem lats i_oob in
    let* lon := getitem lons i_oob in
    Err (InputError (LongitudeOutside lat lon))
  else Ok tt.

(** Python [for] loop whose body may raise. *)
Fixpoint for_loop {A B} (body : A -> B -> result R A) (l : list B) (acc : A)
  : result R A :=
  match l with
  | [] => Ok acc
  | b :: rest => let* acc' := body acc b in for_loop body rest acc'
  end.

(** Python's [enumerate]. *)
Definition enumerate {A} (l : list A) : list (nat * A) :=
  combine (seq 0 (length l)) l.

(** ** _get_elevation_from_path *)

(** The members of rasterio's [Resampling] enum the module refers to. *)
Inductive Resampling := nearest | bilinear | cubic.

(** [INTERPOLATION_METHODS.get(name)]: [None] for a name not in the dict. *)
Definition INTERPOLATION_METHODS_get (name : string) : option Resampling :=
  if String.eqb name "nearest" then Some nearest
  else if String.eqb name "bilinear" then Some bilinear
  else if String.eqb name "cubic" then Some cubic
  else None.

(** An open rasterio dataset, as far as the module uses it. *)
Record Raster := {
  crs_epsg : option Z;                           (* f.crs.to_epsg(), None if no code *)
  bounds : BoundingBox;                          (* f.bounds *)
  res : R * R;                                   (* f.res *)
  height : Z;                                    (* f.height *)
  width : Z;                                     (* f.width *)
  index : R -> R -> R * R;                       (* f.index(x, y, op=_noop) *)
  (* f.read(indexes=1, window=Window(col, row, 1, 1), resampling=...,
     boundless=True, masked=True)[0][0]: [None] when the call raises,
     [Some None] for a masked (NODATA) cell, [Some (Some z)] for a value *)
  read : option Resampling -> R -> R -> option (option R)
}.

(** [rasterio.open(path)]: fails or gives the opened file. *)
Definition Rasterio := string -> option Raster.

(** [np.ma.filled(z, np.nan)] of a 1x1 masked read. *)
Definition filled (z : option R) : R :=
  match z with Some v => v | None => nan end.

(** The loop [for row, col in zip(rows, cols)]: one 1x1 read per point,
    appended to [z_all]; a read that raises ends the call. *)
Definition read_points (f : Raster) (interpolation : option Resampling)
  (rows cols : list R) : result R (list R) :=
  for_loop (fun z_all '(row, col) =>
              match f.(read) interpolation row col with
              | None => Err RasterioError
              | Some z_array => Ok (z_all ++ [filled z_array])
              end) (combine rows cols) [].

(** The body of the [with rasterio.open(path) as f:] block, once the
    interpolation name has been resolved. *)
Definition sample_tile (f : Raster) (proj : Pyproj) (lats lons : list R)
  (interpolation : option Resampling) : result R (list R) :=
  let* xy := match f.(crs_epsg) with
             | Some epsg => _reproject_latlons proj lats lons epsg
             (* _reproject_latlons(lats, lons, None): [None == 4326] is
                False, then [1024 <= None] raises TypeError *)
             | None => Err TypeError
             end in
  let (xs, ys) := xy in
  let* _ := _validate_points_lie_within_raster xs ys lats lons f.(bounds) f.(res) in
  let rc := map (fun '(x, y) => f.(index) x y) (combine xs ys) in
  let rows := map (fun r => sub r point_five) (map fst rc) in
  let cols := map (fun c => sub c point_five) (map snd rc) in
  let rows := map (fun r => clip r (of_Z 0) (of_Z (f.(height) - 1))) rows in
  let cols := map (fun c => clip c (of_Z 0) (of_Z (f.(width) - 1))) cols in
  read_points f interpolation rows cols.

Definition _get_elevation_from_path (rasterio_open : Rasterio) (proj : Pyproj)
  (lats lons : list R) (path : string) (interpolation : string)
  : result R (list R) :=
  let interpolation := INTERPOLATION_METHODS_get interpolation in
  match rasterio_open path with
  | None => Err RasterioIOError
  | Some f => sample_tile f proj lats lons interpolation
  end.

(** ** get_elevation *)

(** A dict key of [path_to_point_index]: a tile path or [None]. *)
Definition Key := option string.

Definition key_eqb (a b : Key) : bool :=
  match a, b with
  | None, None => true
  | Some p, Some q => String.eqb p q
  | _, _ => false
  end.

(** A Python dict, as the list of its items in insertion order. *)
Definition Dict (V : Type) := list (Key * V).

Fixpoint dict_get {V} (k : Key) (d : Dict V) : option V :=
  match d with
  | [] => None
  | (k', v) :: t => if key_eqb k k' then Some v else dict_get k t
  end.

(** [d[k] = v]: replaces in place, or appends a new key. *)
Fixpoint dict_set {V} (k : Key) (v : V) (d : Dict V) : Dict V :=
  match d with
  | [] => [(k, v)]
  | (k', v') :: t => if key_eqb k k' then (k', v) :: t else (k', v') :: dict_set k v t
  end.

(** [path_to_point_index[path].append(i)] on a [defaultdict(list)]. *)
Fixpoint dd_append (k : Key) (i : nat) (d : Dict (list nat)) : Dict (list nat) :=
  match d with
  | [] => [(k, [i])]
  | (k', l) :: t => if key_eqb k k' then (k', l ++ [i]) :: t
                    else (k', l) :: dd_append k i t
  end.

(** [path_to_point_index[path]] read on a [defaultdict(list)]. *)
Definition dd_get (k : Key) (d : Dict (list nat)) : list nat :=
  match dict_get k d with Some l => l | None => [] end.

(** The loop [for i, path in enumerate(paths): ...append(i)]. *)
Definition group_by_path (paths : list Key) : Dict (list nat) :=
  fold_left (fun d '(i, p) => dd_append p i d) (enumerate paths) [].

(** [list.index(None)], [None] when [None] is not in the list. *)
Fixpoint index_none (l : list (option R)) : option nat :=
  match l with
  | [] => None
  | None :: _ => Some 0
  | Some _ :: t => option_map S (index_none t)
  end.

(** The [Dataset] config object. A value of [missing_tile_elevations] is a
    Python list of floats and [None]s. *)
Record Dataset := {
  location_paths : list R -> list R -> list Key;
  missing_tile_elevations : list R -> list R -> list (option R)
}.

(** Lines 184-197: "Check if a path wasn't found." *)
Definition check_missing (dataset : Dataset) (lats lons : list R)
  (path_to_point_index : Dict (list nat))
  (elevations_by_path : Dict (list (option R)))
  : result R (Dict (list (option R))) :=
  match dict_get None path_to_point_index with
  | None => Ok elevations_by_path
  | Some indices =>
      let* no_path_lats := take_indices lats indices in
      let* no_path_lons := take_indices lons indices in
      let fill_values := dataset.(missing_tile_elevations) no_path_lats no_path_lons in
      match index_none fill_values with
      | None => Ok (dict_set None fill_values elevations_by_path)
      | Some i =>
          let* lat := getitem no_path_lats i in
          let* lon := getitem no_path_lons i in
          Err (InputError (OutsideDatasetBounds lat lon))
      end
  end.

(** Lines 199-207: "Batch results by path." *)
Definition batch_by_path (rasterio_open : Rasterio) (proj : Pyproj)
  (lats lons : list R) (interpolation : string)
  (path_to_point_index : Dict (list nat))
  (elevations_by_path : Dict (list (option R)))
  : result R (Dict (list (option R))) :=
  for_loop (fun ebp '(path, indices) =>
    match path with
    | None => Ok ebp
    | Some p =>
        let* batch_lats := take_indices lats (dd_get path path_to_point_index) in
        let* batch_lons := take_indices lons (dd_get path path_to_point_index) in
        let* z := _get_elevation_from_path rasterio_open proj batch_lats batch_lons p
                    interpolation in
        Ok (dict_set path (map Some z) ebp)
    end) path_to_point_index elevations_by_path.

(** Lines 209-215: "Put the results back again." *)
Definition put_back (paths : list Key) (path_to_point_index : Dict (list nat))
  (elevations_by_path : Dict (list (option R))) : result R (list (option R)) :=
  let elevations : list (option R) := repeat None (length paths) in
  for_loop (fun el '(path, path_elevations) =>
    for_loop (fun el '(i_path, i_original) =>
      let* v := getitem path_elevations i_path in
      setitem el i_original v)
      (enumerate (dd_get path path_to_point_index)) el)
    elevations_by_path elevations.

Definition get_elevation (rasterio_open : Rasterio) (proj : Pyproj)
  (lats lons : list R) (dataset : Dataset) (interpolation : string)
  : result R (list (option R)) :=
  let paths := dataset.(location_paths) lats lons in
  let elevations_by_path : Dict (list (option R)) := [] in
  let path_to_point_index := group_by_path paths in
  let* elevations_by_path :=
    check_missing dataset lats lons path_to_point_index elevations_by_path in
  let* elevations_by_path :=
    batch_by_path rasterio_open proj lats lons interpolation path_to_point_index
      elevations_by_path in
  put_back paths path_to_point_index elevations_by_path.

End Backend.

(** ** A concrete number type for evaluation

    Rationals with a NaN, compared the IEEE way (every comparison with NaN is
    false). Used to run the model on the module's test data. *)
Inductive FQ := Fin (q : Q) | NaN.

Definition fq_lift2 (f : Q -> Q -> Q) (a b : FQ) : FQ :=
  match a, b with Fin x, Fin y => Fin (f x y) | _, _ => NaN end.

Definition fq_cmp (f : Q -> Q -> bool) (a b : FQ) : bool :=
  match a, b with Fin x, Fin y => f x y | _, _ => false end.

#[export] Instance Num_FQ : Num FQ := {
  add := fq_lift2 Qplus;
  sub := fq_lift2 Qminus;
  half a := fq_lift2 Qmult a (Fin (1 # 2));
  le := fq_cmp Qle_bool;
  lt := fq_cmp (fun x y => negb (Qle_bool y x));
  of_Z z := Fin (inject_Z z);
  point_five := Fin (1 # 2);
  clip a lo hi :=
    if fq_cmp (fun x y => negb (Qle_bool y x)) a lo then lo
    else if fq_cmp (fun x y => negb (Qle_bool y x)) hi a then hi else a;
  nan := NaN
}.

Definition fz (z : Z) : FQ := Fin (inject_Z z).

(** [rasterio.coords.BoundingBox(-101, -51, 101, 51)] and [res = (2, 2)] of
    [TestValidatePointsLieWithinRaster]. *)
Definition test_bounds : BoundingBox :=
  {| left := fz (-101); bottom := fz (-51); right := fz 101; top := fz 51 |}.
Definition test_res : FQ * FQ := (fz 2, fz 2).

(** ** Definitions that follow the spec's words *)

Section SpecSide.
Context {R : Type} `{Num R}.

(** Section 3: the valid extent, inset by half a pixel on each side. *)
Definition inset_x_min (b : BoundingBox) (rs : R * R) : R :=
  add (py_min b.(left) b.(right)) (half (fst rs)).
Definition inset_x_max (b : BoundingBox) (rs : R * R) : R :=
  sub (py_max b.(left) b.(right)) (half (fst rs)).
Definition inset_y_min (b : BoundingBox) (rs : R * R) : R :=
  add (py_min b.(top) b.(bottom)) (half (snd rs)).
Definition inset_y_max (b : BoundingBox) (rs : R * R) : R :=
  sub (py_max b.(top) b.(bottom)) (half (snd rs)).

(** Section 4.2: [x_min <= x <= x_max], inclusive. *)
Definition x_in (b : BoundingBox) (rs : R * R) (x : R) : bool :=
  le (inset_x_min b rs) x && le x (inset_x_max b rs).
Definition y_in (b : BoundingBox) (rs : R * R) (y : R) : bool :=
  le (inset_y_min b rs) y && le y (inset_y_max b rs).

(** How a call ends: it returns, raises [InputError], or raises something
    else. *)
Inductive Outcome := Returns | RaisesInputError | RaisesOther.

Definition outcome {A} (r : result R A) : Outcome :=
  match r with
  | Ok _ => Returns
  | Err (InputError _) => RaisesInputError
  | Err _ => RaisesOther
  end.

(** The indices [j] with [paths[j] = p], ascending. *)
Definition indices_of (p : Key) (paths : list Key) : list nat :=
  filter (fun j => match nth_error paths j with
                   | Some q => key_eqb p q
                   | None => false
                   end) (seq 0 (length paths)).

(** Section 4.4: the per-point results of one group of [get_elevation]:
    the fill policy for the no-tile group, the tile sampler for a tile. *)
Definition group_values (rasterio_open : Rasterio) (proj : Pyproj)
  (dataset : Dataset) (interpolation : string) (p : Key) (glats glons : list R)
  : result R (list (option R)) :=
  match p with
  | None => Ok (dataset.(missing_tile_elevations) glats glons)
  | Some path =>
      let* zs := _get_elevation_from_path rasterio_open proj glats glons path interpolation in
      Ok (map Some zs)
  end.

End SpecSide.

(** ** Test fixtures *)

(** Plain rationals, for statements that need a reflexive [<=]. *)
#[export] Instance Num_Q : Num Q := {
  add := Qplus;
  sub := Qminus;
  half a := Qmult a (1 # 2);
  le := Qle_bool;
  lt x y := negb (Qle_bool y x);
  of_Z := inject_Z;
  point_five := 1 # 2;
  clip a lo hi := if negb (Qle_bool lo a) then lo else if negb (Qle_bool a hi) then hi else a;
  nan := inject_Z 0
}.

Definition q_bounds : @BoundingBox Q :=
  {| left := inject_Z (-101); bottom := inject_Z (-51);
     right := inject_Z 101; top := inject_Z 51 |}.
Definition q_res : Q * Q := (inject_Z 2, inject_Z 2).

(** A one-tile world: [tile_a] holds the constant 7 wherever it is read
    with a resampling method; like rasterio, its boundless read raises when
    [resampling=None]. *)
Definition tile_a : @Raster FQ :=
  {| crs_epsg := Some 4326%Z; bounds := test_bounds; res := test_res;
     height := 51; width := 101;
     index x y := (y, x);
     read rs _ _ := match rs with None => None | Some _ => Some (Some (fz 7)) end |}.

Definition test_open : @Rasterio FQ :=
  fun path => if String.eqb path "tile_a" then Some tile_a else None.

Definition test_proj : @Pyproj FQ := fun _ => None.

(** Points with a non-negative latitude are in [tile_a]; the others are in
    no tile and are filled with [fill]. *)
Definition test_dataset (fill : option FQ) : @Dataset FQ :=
  {| location_paths lats lons :=
       map (fun lat => if le (fz 0) lat then Some "tile_a"%string else None) lats;
     missing_tile_elevations lats lons := map (fun _ => fill) lats |}.

Example validate_valid_points_on_boundary :
  _validate_points_lie_within_raster
    [fz 0; fz (-100); fz 100] [fz 0; fz (-50); fz 50]
    [fz 0; fz (-50); fz 50] [fz 0; fz (-100); fz 100] test_bounds test_res = Ok tt.
Proof. reflexivity. Qed.

Example validate_invalid_bottom :
  _validate_points_lie_within_raster [fz 0] [fz (-51)] [fz (-51)] [fz 0]
    test_bounds test_res = Err (InputError (LatitudeOutside (fz (-51)) (fz 0))).
Proof. reflexivity. Qed.

(** ** _reproject_latlons and _validate_points_lie_within_raster *)

Ltac bind_cases :=
  repeat match goal with
  | |- context [bind ?m _] => destruct m; simpl
  | H : context [bind ?m _] |- _ => destruct m; simpl in H
  end.

Section Validate.
Context {R : Type} `{Num R}.

Lemma py_all_map {A} (f : A -> bool) (l : list A) :
  py_all (map f l) = true <-> Forall (fun a => f a = true) l.
Proof.
  unfold py_all. rewrite forallb_forall, Forall_forall.
  split; intros Hf a Ha.
  - apply Hf, in_map, Ha.
  - apply in_map_iff in Ha as [x [<- Hx]]. apply Hf, Hx.
Qed.

Lemma py_all_map_false {A} (f : A -> bool) (l : list A) :
  py_all (map f l) = false <-> Exists (fun a => f a = false) l.
Proof.
  induction l as [|a l IH]; simpl.
  - split; [discriminate | intros Hx; inversion Hx].
  - unfold py_all in *. simpl. destruct (f a) eqn:Ef; simpl.
    + rewrite IH. split; intros Hx.
      * now apply Exists_cons_tl.
      * inversion Hx; subst; [congruence | assumption].
    + split; intros _; [now apply Exists_cons_hd | reflexivity].
Qed.

Lemma first_true_lt (l : list bool) (i : nat) :
  first_true l = Some i -> i < length l.
Proof.
  revert i. induction l as [|b l IH]; simpl; intros i Hi; [discriminate|].
  destruct b.
  - injection Hi as <-. lia.
  - destruct (first_true l) as [j|] eqn:Ej; simpl in Hi; [|discriminate].
    injection Hi as <-. specialize (IH j eq_refl). lia.
Qed.

(** When some entry is [False], [np.argmax] gives an index of the array. *)
Lemma argmax_in_range (l : list bool) :
  py_all l = false -> exists i, @argmax R l = Ok i /\ i < length l.
Proof.
  destruct l as [|b t] eqn:El; [discriminate|]. intros _.
  rewrite <- El. unfold argmax. rewrite El. rewrite <- El.
  destruct (first_true l) as [i|] eqn:Ei.
  - exists i. split; [reflexivity|]. now apply first_true_lt.
  - exists 0. split; [reflexivity|]. subst; simpl; lia.
Qed.

Lemma getitem_in_range {A} (l : list A) (i : nat) :
  i < length l -> exists a, @getitem R A l i = Ok a.
Proof.
  intros Hi. unfold getitem.
  destruct (nth_error l i) as [a|] eqn:E; [now exists a|].
  apply nth_error_None in E. lia.
Qed.

(** The validator, with the inset extent written as in the spec. *)
Lemma validate_unfold xs ys lats lons b rs :
  _validate_points_lie_within_raster xs ys lats lons b rs =
  if negb (py_all (map (y_in b rs) ys)) then
    let* i_oob := argmax (map (y_in b rs) ys) in
    let* lat := getitem lats i_oob in
    let* lon := getitem lons i_oob in
    Err (InputError (LatitudeOutside lat lon))
  else if negb (py_all (map (x_in b rs) xs)) then
    let* i_oob := argmax (map (x_in b rs) xs) in
    let* lat := getitem lats i_oob in
    let* lon := getitem lons i_oob in
    Err (InputError (LongitudeOutside lat lon))
  else Ok tt.
Proof. reflexivity. Qed.

End Validate.

Section ValidateClaims.
Context {R : Type} `{Num R}.

(** C4: [_validate_points_lie_within_raster] returns normally exactly when
    every [x] lies in [[x_min, x_max]] and every [y] in [[y_min, y_max]], the
    extent being inset by half a pixel ([x_min = min(left,right) + x_res/2],
    [x_max = max(left,right) - x_res/2], the same for [y]); and, when [<=] is
    reflexive and the extent is not empty, points lying exactly on the inset
    boundary pass. *)
Theorem validate_ok_iff_inset_bounds xs ys lats lons (b : BoundingBox) (rs : R * R) :
  (_validate_points_lie_within_raster xs ys lats lons b rs = Ok tt <->
   Forall (fun x => le (inset_x_min b rs) x = true /\ le x (inset_x_max b rs) = true) xs /\
   Forall (fun y => le (inset_y_min b rs) y = true /\ le y (inset_y_max b rs) = true) ys) /\
  ((forall a, le a a = true) ->
   le (inset_x_min b rs) (inset_x_max b rs) = true ->
   le (inset_y_min b rs) (inset_y_max b rs) = true ->
   Forall (fun x => x = inset_x_min b rs \/ x = inset_x_max b rs) xs ->
   Forall (fun y => y = inset_y_min b rs \/ y = inset_y_max b rs) ys ->
   _validate_points_lie_within_raster xs ys lats lons b rs = Ok tt).
Proof.
  assert (Hiff : _validate_points_lie_within_raster xs ys lats lons b rs = Ok tt <->
    Forall (fun x => le (inset_x_min b rs) x = true /\ le x (inset_x_max b rs) = true) xs /\
    Forall (fun y => le (inset_y_min b rs) y = true /\ le y (inset_y_max b rs) = true) ys).
  { rewrite validate_unfold.
    assert (Ex : forall l, Forall (fun x => x_in b rs x = true) l <->
      Forall (fun x => le (inset_x_min b rs) x = true /\ le x (inset_x_max b rs) = true) l).
    { intros l. split; apply Forall_impl; intros a; unfold x_in;
        rewrite andb_true_iff; auto. }
    assert (Ey : forall l, Forall (fun y => y_in b rs y = true) l <->
      Forall (fun y => le (inset_y_min b rs) y = true /\ le y (inset_y_max b rs) = true) l).
    { intros l. split; apply Forall_impl; intros a; unfold y_in;
        rewrite andb_true_iff; auto. }
    rewrite <- Ex, <- Ey, <- !py_all_map.
    destruct (py_all (map (y_in b rs) ys)), (py_all (map (x_in b rs) xs)); simpl;
      split; intros Hr; try (split; congruence); try (destruct Hr; congruence);
      bind_cases; discriminate. }
  split; [exact Hiff|].
  intros Hrefl Hx Hy Hxs Hys. apply Hiff. split.
  - eapply Forall_impl; [|exact Hxs]. intros a [-> | ->]; auto.
  - eapply Forall_impl; [|exact Hys]. intros a [-> | ->]; auto.
Qed.

(** C5: when some [y] violates the latitude bound and some [x] the longitude
    bound, the [InputError] raised is the latitude one (for [lats] and
    [lons] index-aligned with [ys]). *)
Theorem validate_latitude_reported_first xs ys lats lons (b : BoundingBox) (rs : R * R) :
  length lats = length ys -> length lons = length ys ->
  Exists (fun y => y_in b rs y = false) ys ->
  Exists (fun x => x_in b rs x = false) xs ->
  exists lat lon, _validate_points_lie_within_raster xs ys lats lons b rs
                  = Err (InputError (LatitudeOutside lat lon)).
Proof.
  intros Hlat Hlon Hy _. rewrite validate_unfold.
  apply py_all_map_false in Hy. rewrite Hy. simpl.
  destruct (@argmax_in_range R _ Hy) as [i [-> Hi]]. simpl.
  rewrite length_map in Hi.
  destruct (@getitem_in_range R _ lats i) as [lat ->]; [lia|].
  destruct (@getitem_in_range R _ lons i) as [lon ->]; [lia|].
  now exists lat, lon.
Qed.

Lemma validate_outcome xs ys lats lons (b : BoundingBox) (rs : R * R) :
  length ys <= length lats -> length ys <= length lons ->
  length xs <= length lats -> length xs <= length lons ->
  outcome (_validate_points_lie_within_raster xs ys lats lons b rs) =
  if py_all (map (y_in b rs) ys) && py_all (map (x_in b rs) xs)
  then Returns else RaisesInputError.
Proof.
  intros H1 H2 H3 H4. rewrite validate_unfold.
  destruct (py_all (map (y_in b rs) ys)) eqn:Ey; simpl.
  - destruct (py_all (map (x_in b rs) xs)) eqn:Ex; simpl; [reflexivity|].
    destruct (@argmax_in_range R _ Ex) as [i [-> Hi]]. simpl.
    rewrite length_map in Hi.
    destruct (@getitem_in_range R _ lats i) as [lat ->]; [lia|].
    destruct (@getitem_in_range R _ lons i) as [lon ->]; [lia|].
    reflexivity.
  - destruct (@argmax_in_range R _ Ey) as [i [-> Hi]]. simpl.
    rewrite length_map in Hi.
    destruct (@getitem_in_range R _ lats i) as [lat ->]; [lia|].
    destruct (@getitem_in_range R _ lons i) as [lon ->]; [lia|].
    reflexivity.
Qed.

(** C6: whether [_validate_points_lie_within_raster] returns or raises
    [InputError] depends only on [xs], [ys], [bounds] and [res]: two runs
    that differ only in [lats] and [lons] (each index-aligned with the
    points) end the same way. *)
Theorem validate_outcome_independent_of_latlons xs ys lats lons lats' lons'
  (b : BoundingBox) (rs : R * R) :
  length ys = length xs ->
  length lats = length xs -> length lons = length xs ->
  length lats' = length xs -> length lons' = length xs ->
  outcome (_validate_points_lie_within_raster xs ys lats lons b rs) =
  outcome (_validate_points_lie_within_raster xs ys lats' lons' b rs) /\
  outcome (_validate_points_lie_within_raster xs ys lats lons b rs) <> RaisesOther.
Proof.
  intros Hy H1 H2 H3 H4.
  rewrite !validate_outcome by lia.
  split; [reflexivity|].
  destruct (_ && _); discriminate.
Qed.

(** C8: [_reproject_latlons] raises [InputError("Dataset has invalid
    projection.")] exactly when [epsg] is not 4326 and lies outside
    [[1024, 32767]], whatever the points. *)
Theorem reproject_invalid_projection_iff (proj : Pyproj) (lats lons : list R) (epsg : Z) :
  _reproject_latlons proj lats lons epsg = Err (InputError InvalidProjection) <->
  (epsg <> 4326 /\ (epsg < 1024 \/ 32767 < epsg))%Z.
Proof.
  unfold _reproject_latlons, WGS84_LATLON_EPSG.
  destruct (Z.eqb_spec epsg 4326) as [E|E].
  - split; [discriminate | lia].
  - destruct (Z.leb_spec 1024 epsg), (Z.leb_spec epsg 32767); simpl.
    + split; [|lia]. destruct (proj epsg); discriminate.
    + split; [intros _; lia | reflexivity].
    + split; [intros _; lia | reflexivity].
    + split; [intros _; lia | reflexivity].
Qed.

(** C9: with EPSG 4326, [_reproject_latlons] returns [(lons, lats)]
    unchanged. *)
Theorem reproject_wgs84_identity (proj : Pyproj) (lats lons : list R) :
  _reproject_latlons proj lats lons 4326 = Ok (lons, lats).
Proof. reflexivity. Qed.

End ValidateClaims.

(** C1 (defect): on the test bounds, with one point inside and one point
    above the latitude extent, the validator quotes the point that is
    inside: [np.argmax(y_in_bounds)] is the first index where the test
    holds, not the first one where it fails. *)
Theorem validate_quotes_in_bounds_point :
  y_in test_bounds test_res (fz 0) = true /\
  y_in test_bounds test_res (fz 100) = false /\
  _validate_points_lie_within_raster [fz 0; fz 0] [fz 0; fz 100]
    [fz 0; fz 100] [fz 0; fz 0] test_bounds test_res
  = Err (InputError (LatitudeOutside (fz 0) (fz 0))).
Proof. repeat split; reflexivity. Qed.

(** ** _get_elevation_from_path *)

Section Sampler.
Context {R : Type} `{Num R}.

(** The body of the read loop of [_get_elevation_from_path]. *)
Definition read_step (f : Raster) (k : option Resampling) (z_all : list R) (rc : R * R)
  : result R (list R) :=
  let '(row, col) := rc in
  match f.(read) k row col with
  | None => Err RasterioError
  | Some z_array => Ok (z_all ++ [filled z_array])
  end.

Lemma read_points_loop (f : Raster) (k : option Resampling) (rows cols : list R) :
  read_points f k rows cols = for_loop (read_step f k) (combine rows cols) [].
Proof. reflexivity. Qed.

Lemma read_loop_length (f : Raster) (k : option Resampling) (l : list (R * R))
  (acc out : list R) :
  for_loop (read_step f k) l acc = Ok out -> length out = length acc + length l.
Proof.
  revert acc. induction l as [|[r c] l IH]; intros acc Hl; simpl in Hl.
  - injection Hl as <-. simpl. lia.
  - unfold read_step at 1 in Hl.
    destruct (read f k r c) as [z|]; cbn [bind] in Hl; [|discriminate].
    apply IH in Hl. rewrite Hl, length_app. simpl. lia.
Qed.

(** A failing read is the only way the loop raises, and it raises
    rasterio's error, never [InputError]. *)
Lemma read_loop_error (f : Raster) (k : option Resampling) (l : list (R * R))
  (acc : list R) (e : Exc R) :
  for_loop (read_step f k) l acc = Err e -> e = RasterioError.
Proof.
  revert acc. induction l as [|[r c] l IH]; intros acc Hl; simpl in Hl; [discriminate|].
  unfold read_step at 1 in Hl.
  destruct (read f k r c) as [z|]; cbn [bind] in Hl; [exact (IH _ Hl)|].
  injection Hl as <-. reflexivity.
Qed.

Lemma read_loop_raises (f : Raster) (k : option Resampling) (l : list (R * R))
  (acc : list R) :
  (forall row col, f.(read) k row col = None) -> l <> [] ->
  for_loop (read_step f k) l acc = Err RasterioError.
Proof.
  intros Hr Hl. destruct l as [|[r c] l]; [contradiction|].
  simpl. unfold read_step at 1. rewrite Hr. reflexivity.
Qed.

Lemma read_loop_ok (f : Raster) (k : option Resampling) (l : list (R * R))
  (acc : list R) :
  (forall row col, f.(read) k row col <> None) ->
  exists out, for_loop (read_step f k) l acc = Ok out.
Proof.
  intros Hr. revert acc. induction l as [|[r c] l IH]; intros acc; simpl.
  - eexists; reflexivity.
  - unfold read_step at 1. destruct (read f k r c) as [z|] eqn:E; [|exfalso; exact (Hr r c E)].
    cbn [bind]. apply IH.
Qed.

(** C7 (defect): a name outside [nearest], [bilinear], [cubic] raises no
    validation error: it resolves to no resampling override and the reads
    are issued with [resampling=None].  But a boundless rasterio read with
    [resampling=None] raises; on a tile that does so, every batch on which
    ["nearest"] returns some elevation makes the unknown name raise
    rasterio's error instead of proceeding. *)
Theorem unknown_interpolation_read_raises (name : string)
  (rasterio_open : Rasterio) (proj : Pyproj) (lats lons : list R) (path : string)
  (f : Raster) (zs : list R) :
  name <> "nearest"%string -> name <> "bilinear"%string -> name <> "cubic"%string ->
  rasterio_open path = Some f ->
  (forall row col, f.(read) None row col = None) ->
  _get_elevation_from_path rasterio_open proj lats lons path "nearest" = Ok zs ->
  zs <> [] ->
  INTERPOLATION_METHODS_get name = None /\
  _get_elevation_from_path rasterio_open proj lats lons path name
    = sample_tile f proj lats lons None /\
  _get_elevation_from_path rasterio_open proj lats lons path name = Err RasterioError.
Proof.
  intros Hn Hb Hc Ho Hr Hz Hnz.
  assert (Hget : INTERPOLATION_METHODS_get name = None).
  { unfold INTERPOLATION_METHODS_get.
    destruct (String.eqb_spec name "nearest"); [contradiction|].
    destruct (String.eqb_spec name "bilinear"); [contradiction|].
    destruct (String.eqb_spec name "cubic"); [contradiction|].
    reflexivity. }
  split; [exact Hget|].
  unfold _get_elevation_from_path in *. rewrite Hget, Ho. rewrite Ho in Hz.
  split; [reflexivity|].
  unfold sample_tile in *.
  destruct (crs_epsg f) as [epsg|]; cbn [bind] in Hz; [|discriminate].
  destruct (_reproject_latlons proj lats lons epsg) as [[xs ys]|e];
    cbn [bind] in *; [|discriminate].
  destruct (_validate_points_lie_within_raster xs ys lats lons (bounds f) (res f));
    cbn [bind] in *; [|discriminate].
  rewrite read_points_loop in *.
  apply read_loop_length in Hz.
  apply read_loop_raises; [exact Hr|].
  intros E. rewrite E in Hz. destruct zs; [contradiction|discriminate].
Qed.

End Sampler.

(** ** Dicts and the grouping of points by tile path *)

Section Grouping.

Lemma key_eqb_spec (a b : Key) : key_eqb a b = true <-> a = b.
Proof.
  destruct a as [p|], b as [q|]; simpl; try (split; congruence).
  rewrite String.eqb_eq. split; congruence.
Qed.

Lemma key_dec (a b : Key) : {a = b} + {a <> b}.
Proof. decide equality. apply string_dec. Defined.

Lemma key_eqb_refl (a : Key) : key_eqb a a = true.
Proof. now apply key_eqb_spec. Qed.

Lemma key_eqb_false (a b : Key) : key_eqb a b = false <-> a <> b.
Proof.
  rewrite <- key_eqb_spec. destruct (key_eqb a b); split; congruence.
Qed.

Lemma combine_snoc {A B} (a : list A) (b : list B) x y :
  length a = length b -> combine (a ++ [x]) (b ++ [y]) = combine a b ++ [(x, y)].
Proof.
  revert b. induction a as [|u a IH]; intros [|v b] Hl; simpl in *; try discriminate.
  - reflexivity.
  - rewrite IH by lia. reflexivity.
Qed.

Lemma enumerate_snoc {A} (l : list A) (x : A) :
  enumerate (l ++ [x]) = enumerate l ++ [(length l, x)].
Proof.
  unfold enumerate. rewrite length_app. simpl. rewrite Nat.add_1_r, seq_S.
  apply combine_snoc. now rewrite length_seq.
Qed.

Lemma group_by_path_snoc (paths : list Key) (p : Key) :
  group_by_path (paths ++ [p]) = dd_append p (length paths) (group_by_path paths).
Proof. unfold group_by_path. now rewrite enumerate_snoc, fold_left_app. Qed.

Lemma dict_get_dd_append (k p : Key) (i : nat) (d : Dict (list nat)) :
  dict_get k (dd_append p i d) =
  if key_eqb k p then Some (dd_get k d ++ [i]) else dict_get k d.
Proof.
  unfold dd_get. induction d as [|[k' l] t IH]; simpl.
  - destruct (key_eqb k p); reflexivity.
  - destruct (key_eqb p k') eqn:Epk; simpl.
    + apply key_eqb_spec in Epk as ->. destruct (key_eqb k k'); reflexivity.
    + rewrite IH. destruct (key_eqb k k') eqn:Ekk; [|reflexivity].
      apply key_eqb_spec in Ekk as ->. rewrite key_eqb_false in Epk.
      destruct (key_eqb k' p) eqn:E; [|reflexivity].
      apply key_eqb_spec in E. congruence.
Qed.

Lemma indices_of_snoc (k : Key) (paths : list Key) (p : Key) :
  indices_of k (paths ++ [p]) =
  indices_of k paths ++ (if key_eqb k p then [length paths] else []).
Proof.
  unfold indices_of. rewrite length_app. simpl. rewrite Nat.add_1_r, seq_S.
  rewrite filter_app. simpl. f_equal.
  - apply filter_ext_in. intros j Hj. apply in_seq in Hj.
    rewrite nth_error_app1 by lia. reflexivity.
  - rewrite nth_error_app2, Nat.sub_diag by lia. simpl.
    destruct (key_eqb k p); reflexivity.
Qed.

Lemma group_by_path_get (paths : list Key) (k : Key) :
  dict_get k (group_by_path paths) =
  match indices_of k paths with [] => None | l => Some l end.
Proof.
  induction paths as [|p paths IH] using rev_ind; [reflexivity|].
  rewrite group_by_path_snoc, dict_get_dd_append, indices_of_snoc.
  unfold dd_get. rewrite IH.
  destruct (key_eqb k p).
  - destruct (indices_of k paths); reflexivity.
  - rewrite app_nil_r. reflexivity.
Qed.

Lemma dd_get_group_by_path (paths : list Key) (k : Key) :
  dd_get k (group_by_path paths) = indices_of k paths.
Proof.
  unfold dd_get. rewrite group_by_path_get. destruct (indices_of k paths); reflexivity.
Qed.

Lemma In_indices_of (j : nat) (k : Key) (paths : list Key) :
  In j (indices_of k paths) <-> nth_error paths j = Some k.
Proof.
  unfold indices_of. rewrite filter_In, in_seq. split.
  - intros [_ Hj]. destruct (nth_error paths j) as [q|]; [|discriminate].
    apply key_eqb_spec in Hj. congruence.
  - intros Hj. split.
    + assert (j < length paths) by (apply nth_error_Some; congruence). lia.
    + rewrite Hj. apply key_eqb_refl.
Qed.

Lemma NoDup_indices_of (k : Key) (paths : list Key) : NoDup (indices_of k paths).
Proof. apply NoDup_filter, seq_NoDup. Qed.

Lemma concat_dd_append (p : Key) (i : nat) (d : Dict (list nat)) :
  Permutation (concat (map snd (dd_append p i d))) (concat (map snd d) ++ [i]).
Proof.
  induction d as [|[k' l] t IH]; simpl; [reflexivity|].
  destruct (key_eqb p k'); simpl.
  - rewrite <- !app_assoc. apply Permutation_app_head, Permutation_app_comm.
  - rewrite <- app_assoc. now apply Permutation_app_head.
Qed.

(** [path_to_point_index] puts every index of [paths] in exactly one group,
    once. *)
Lemma group_by_path_partition (paths : list Key) :
  Permutation (concat (map snd (group_by_path paths))) (seq 0 (length paths)).
Proof.
  induction paths as [|p paths IH] using rev_ind; [reflexivity|].
  rewrite group_by_path_snoc, concat_dd_append, length_app. simpl.
  rewrite Nat.add_1_r, seq_S. now apply Permutation_app_tail.
Qed.

Lemma dict_get_In {V} (k : Key) (d : Dict V) (v : V) :
  dict_get k d = Some v -> In (k, v) d.
Proof.
  induction d as [|[k' v'] t IH]; simpl; [discriminate|].
  destruct (key_eqb k k') eqn:E.
  - apply key_eqb_spec in E as ->. intros [= ->]. now left.
  - intros Hk. right. now apply IH.
Qed.

Lemma dict_get_set {V} (k k' : Key) (v : V) (d : Dict V) :
  dict_get k (dict_set k' v d) = if key_eqb k k' then Some v else dict_get k d.
Proof.
  induction d as [|[k'' v''] t IH]; simpl; [reflexivity|].
  destruct (key_eqb k' k'') eqn:E1; simpl.
  - apply key_eqb_spec in E1 as ->. destruct (key_eqb k k''); reflexivity.
  - rewrite IH. destruct (key_eqb k k'') eqn:E2; [|reflexivity].
    apply key_eqb_spec in E2 as ->. rewrite key_eqb_false in E1.
    destruct (key_eqb k'' k') eqn:E3; [|reflexivity].
    apply key_eqb_spec in E3. congruence.
Qed.

Lemma In_keys_dict_set {V} (k x : Key) (v : V) (d : Dict V) :
  In x (map fst (dict_set k v d)) -> x = k \/ In x (map fst d).
Proof.
  induction d as [|[k' v'] t IH]; simpl.
  - intros [<- | []]. now left.
  - destruct (key_eqb k k'); simpl; intros [<- | Hx]; auto.
    destruct (IH Hx); auto.
Qed.

Lemma NoDup_dict_set {V} (k : Key) (v : V) (d : Dict V) :
  NoDup (map fst d) -> NoDup (map fst (dict_set k v d)).
Proof.
  induction d as [|[k' v'] t IH]; simpl; intros Hd.
  - constructor; [intros [] | constructor].
  - inversion Hd as [|? ? Hk' Ht]; subst.
    destruct (key_eqb k k') eqn:E; simpl; constructor; auto.
    intros Hin. apply In_keys_dict_set in Hin as [-> | Hin]; [|contradiction].
    apply key_eqb_false in E. congruence.
Qed.

End Grouping.

(** ** The merge loop of get_elevation *)

Section Merge.
Context {R : Type}.

Lemma setitem_spec {A} (l : list A) (i : nat) (v : A) (l' : list A) :
  @setitem R A l i v = Ok l' ->
  length l' = length l /\ nth_error l' i = Some v /\
  (forall j, j <> i -> nth_error l' j = nth_error l j).
Proof.
  revert i l'. induction l as [|x t IH]; intros i l' Hs; simpl in Hs; [discriminate|].
  destruct i as [|i].
  - injection Hs as <-. repeat split. intros [|j] Hj; [lia|reflexivity].
  - destruct (setitem t i v) as [t'|] eqn:Et; simpl in Hs; [|discriminate].
    injection Hs as <-. destruct (IH _ _ Et) as (H1 & H2 & H3).
    repeat split; simpl; auto.
    intros [|j] Hj; simpl; [reflexivity|]. apply H3. lia.
Qed.

(** The inner loop [for i_path, i_original in enumerate(indices)]. *)
Lemma scatter_spec {A} (pe : list A) (g : list nat) (s : nat) (el el' : list A) :
  for_loop (fun (el : list A) '(i_path, i_original) =>
              let* v := @getitem R A pe i_path in setitem el i_original v)
           (combine (seq s (length g)) g) el = Ok el' ->
  length el' = length el /\
  (forall i, ~ In i g -> nth_error el' i = nth_error el i) /\
  (NoDup g -> forall kk i, nth_error g kk = Some i ->
     exists v, nth_error pe (s + kk) = Some v /\ nth_error el' i = Some v).
Proof.
  revert s el. induction g as [|i0 g IH]; intros s el Hl; simpl in Hl.
  - injection Hl as <-. split; [reflexivity|]. split; [intros i _; reflexivity|].
    intros _ kk i Hk. destruct kk; discriminate.
  - unfold getitem at 1 in Hl.
    destruct (nth_error pe s) as [v0|] eqn:Epe; simpl in Hl; [|discriminate].
    destruct (setitem el i0 v0) as [el1|] eqn:Eset; simpl in Hl; [|discriminate].
    destruct (setitem_spec _ _ _ _ Eset) as (S1 & S2 & S3).
    destruct (IH _ _ Hl) as (I1 & I2 & I3).
    split; [congruence|]. split.
    + intros i Hi. rewrite I2 by (intros Hg; apply Hi; now right).
      apply S3. intros ->. apply Hi. now left.
    + intros Hnd kk i Hk. inversion Hnd as [|? ? Hni Hnd']; subst.
      destruct kk as [|kk]; simpl in Hk.
      * injection Hk as <-. exists v0. rewrite Nat.add_0_r. split; [exact Epe|].
        rewrite I2 by exact Hni. exact S2.
      * destruct (I3 Hnd' kk i Hk) as (v & Hv1 & Hv2). exists v.
        rewrite <- Nat.add_succ_comm. split; assumption.
Qed.

(** The outer loop [for path, path_elevations in elevations_by_path.items()],
    for groups [G] that are duplicate-free and pairwise disjoint. *)
Lemma merge_spec {A} (G : Key -> list nat) (E : Dict (list A)) (el out : list A) :
  for_loop (fun (el : list A) '(path, path_elevations) =>
              for_loop (fun (el : list A) '(i_path, i_original) =>
                          let* v := @getitem R A path_elevations i_path in
                          setitem el i_original v)
                       (enumerate (G path)) el) E el = Ok out ->
  NoDup (map fst E) ->
  (forall k, NoDup (G k)) ->
  (forall k1 k2 i, In i (G k1) -> In i (G k2) -> k1 = k2) ->
  length out = length el /\
  (forall i, (forall k, In k (map fst E) -> ~ In i (G k)) ->
             nth_error out i = nth_error el i) /\
  (forall k pe kk i, In (k, pe) E -> nth_error (G k) kk = Some i ->
     exists v, nth_error pe kk = Some v /\ nth_error out i = Some v).
Proof.
  intros Hl HE HG Hdis. revert el Hl.
  induction E as [|[k pe] E IH]; intros el Hl; simpl in Hl.
  - injection Hl as <-. split; [reflexivity|]. split; [intros i _; reflexivity|].
    intros k pe kk i [].
  - inversion HE as [|? ? Hk HE']; subst.
    destruct (for_loop _ (enumerate (G k)) el) as [el1|] eqn:E1; simpl in Hl;
      [|discriminate].
    unfold enumerate in E1.
    destruct (scatter_spec _ _ _ _ _ E1) as (S1 & S2 & S3).
    destruct (IH HE' _ Hl) as (I1 & I2 & I3).
    split; [congruence|]. split.
    + intros i Hi. rewrite I2 by (intros k' Hk'; apply Hi; now right).
      apply S2. apply Hi. now left.
    + intros k' pe' kk i [Hin | Hin] Hkk.
      * injection Hin as <- <-.
        destruct (S3 (HG k) kk i Hkk) as (v & Hv1 & Hv2).
        exists v. split; [exact Hv1|]. rewrite I2; [exact Hv2|].
        intros k'' Hk'' Hi''. apply (nth_error_In) in Hkk.
        pose proof (Hdis _ _ _ Hkk Hi'') as ->. contradiction.
      * now apply (I3 k' pe').
Qed.

End Merge.

(** ** get_elevation *)

Section Orchestrator.
Context {R : Type} `{Num R}.

Lemma take_indices_Forall2 {A} (l : list A) (idx : list nat) (vs : list A) :
  Forall2 (fun j v => nth_error l j = Some v) idx vs -> @take_indices R A l idx = Ok vs.
Proof.
  induction 1 as [|j v idx vs Hj _ IH]; simpl; [reflexivity|].
  unfold getitem at 1. rewrite Hj. simpl. rewrite IH. reflexivity.
Qed.

Lemma Forall2_nth_error {A B} (P : A -> B -> Prop) l1 l2 k a b :
  Forall2 P l1 l2 -> nth_error l1 k = Some a -> nth_error l2 k = Some b -> P a b.
Proof.
  intros HF. revert k. induction HF as [|x y l1 l2 Hxy _ IH]; intros [|k] Ha Hb;
    simpl in *; try discriminate.
  - injection Ha as <-. injection Hb as <-. exact Hxy.
  - exact (IH k Ha Hb).
Qed.

Lemma index_none_first (l : list (option R)) :
  In None l -> exists k, index_none l = Some k /\ nth_error l k = Some None /\
                         forall k', k' < k -> nth_error l k' <> Some None.
Proof.
  induction l as [|x l IH]; simpl; [intros []|].
  intros Hin. destruct x as [v|].
  - destruct Hin as [Hx | Hin]; [discriminate|].
    destruct (IH Hin) as (k & H1 & H2 & H3). exists (S k).
    rewrite H1. split; [reflexivity|]. split; [exact H2|].
    intros [|k'] Hk'; simpl; [discriminate|]. apply H3. lia.
  - exists 0. repeat split. intros k' Hk'. lia.
Qed.

Lemma index_none_None (l : list (option R)) k v :
  index_none l = None -> nth_error l k = Some v -> exists w, v = Some w.
Proof.
  revert k. induction l as [|x l IH]; intros [|k]; simpl; try discriminate.
  - destruct x as [w|]; [|discriminate]. intros _ [= <-]. now exists w.
  - destruct x as [w|]; [|discriminate].
    destruct (index_none l) eqn:E; [discriminate|]. intros _. now apply IH.
Qed.


(** The loop [for path, indices in path_to_point_index.items()]. *)
Lemma batch_spec (rasterio_open : Rasterio) (proj : Pyproj) (lats lons : list R)
  (dataset : Dataset) (interpolation : string) (D : Dict (list nat))
  (L : Dict (list nat)) (acc E : Dict (list (option R))) :
  for_loop (fun (ebp : Dict (list (option R))) '(path, indices) =>
    match path with
    | None => Ok ebp
    | Some p =>
        let* batch_lats := take_indices lats (dd_get path D) in
        let* batch_lons := take_indices lons (dd_get path D) in
        let* z := _get_elevation_from_path rasterio_open proj batch_lats batch_lons p
                    interpolation in
        Ok (dict_set path (map Some z) ebp)
    end) L acc = Ok E ->
  (NoDup (map fst acc) -> NoDup (map fst E)) /\
  (forall path, In (Some path) (map fst L) ->
     exists bl bn vals,
       @take_indices R R lats (dd_get (Some path) D) = Ok bl /\
       @take_indices R R lons (dd_get (Some path) D) = Ok bn /\
       group_values rasterio_open proj dataset interpolation (Some path) bl bn = Ok vals /\
       dict_get (Some path) E = Some vals) /\
  (forall k, k = None \/ ~ In k (map fst L) -> dict_get k E = dict_get k acc).
Proof.
  revert acc. induction L as [|[k l] L IH]; intros acc HL; simpl in HL.
  - injection HL as <-. split; [auto|]. split; [intros path []|]. reflexivity.
  - destruct k as [p|].
    + destruct (take_indices lats (dd_get (Some p) D)) as [bl|] eqn:Ebl; simpl in HL;
        [|discriminate].
      destruct (take_indices lons (dd_get (Some p) D)) as [bn|] eqn:Ebn; simpl in HL;
        [|discriminate].
      destruct (_get_elevation_from_path rasterio_open proj bl bn p interpolation)
        as [zs|] eqn:Ez; simpl in HL; [|discriminate].
      destruct (IH _ HL) as (I1 & I2 & I3). split; [|split].
      * intros Hacc. apply I1, NoDup_dict_set, Hacc.
      * intros path Hin. simpl in Hin.
        destruct (in_dec key_dec (Some path) (map fst L)) as [HinL|HnL].
        { now apply I2. }
        destruct Hin as [[= ->] | Hin]; [|contradiction].
        exists bl, bn, (map Some zs). split; [exact Ebl|]. split; [exact Ebn|].
        split; [simpl; rewrite Ez; reflexivity|].
        rewrite I3 by (right; exact HnL). rewrite dict_get_set, key_eqb_refl. reflexivity.
      * intros k Hk. rewrite I3.
        { rewrite dict_get_set. destruct (key_eqb k (Some p)) eqn:Ek; [|reflexivity].
          apply key_eqb_spec in Ek as ->. destruct Hk as [Hk | Hk]; [discriminate|].
          exfalso. apply Hk. now left. }
        destruct Hk as [Hk | Hk]; [now left|]. right. intros Hin. apply Hk. now right.
    + destruct (IH _ HL) as (I1 & I2 & I3). split; [exact I1|]. split.
      * intros path [Hin | Hin]; [discriminate|]. now apply I2.
      * intros k Hk. apply I3. destruct Hk as [Hk | Hk]; [now left|].
        right. intros Hin. apply Hk. now right.
Qed.

Lemma check_missing_ok (rasterio_open : Rasterio) (proj : Pyproj) (interpolation : string)
  (dataset : Dataset) (lats lons : list R) (paths : list Key)
  (E0 : Dict (list (option R))) :
  check_missing dataset lats lons (group_by_path paths) [] = Ok E0 ->
  NoDup (map fst E0) /\ (forall path, dict_get (Some path) E0 = None) /\
  (In None paths ->
   exists bl bn vals,
     @take_indices R R lats (indices_of None paths) = Ok bl /\
     @take_indices R R lons (indices_of None paths) = Ok bn /\
     group_values rasterio_open proj dataset interpolation None bl bn = Ok vals /\
     index_none vals = None /\ dict_get None E0 = Some vals).
Proof.
  unfold check_missing. rewrite group_by_path_get.
  destruct (indices_of None paths) as [|n0 rest] eqn:Ent.
  - intros [= <-]. split; [constructor|]. split; [reflexivity|].
    intros Hin. apply In_nth_error in Hin as [j Hj].
    apply In_indices_of in Hj. rewrite Ent in Hj. destruct Hj.
  - destruct (@take_indices R R lats (n0 :: rest)) as [bl|] eqn:Ebl; cbn [bind]; [|intros Hc; discriminate].
    destruct (@take_indices R R lons (n0 :: rest)) as [bn|] eqn:Ebn; cbn [bind]; [|intros Hc; discriminate].
    destruct (index_none (missing_tile_elevations dataset bl bn)) as [i|] eqn:Ei.
    + intros Hc. bind_cases; discriminate.
    + intros [= <-]. simpl. split; [constructor; [intros []|constructor]|].
      split; [reflexivity|]. intros _.
      exists bl, bn, (missing_tile_elevations dataset bl bn).
      repeat split; assumption.
Qed.

(** C10: the empty batch gives the empty list, when the dataset routes the
    empty batch to no paths. *)
Theorem get_elevation_empty_batch (rasterio_open : Rasterio) (proj : Pyproj)
  (dataset : Dataset) (interpolation : string) :
  dataset.(location_paths) [] [] = [] ->
  get_elevation rasterio_open proj [] [] dataset interpolation = Ok [].
Proof. intros Hp. unfold get_elevation. rewrite Hp. reflexivity. Qed.

(** C2: when the fill policy marks some point of the no-tile group with
    [None], [get_elevation] raises [InputError("Point '<lat>,<lon>' is
    outside dataset bounds.")] for the first marked point of that group (in
    input order), before any tile is read. *)
Theorem get_elevation_outside_dataset (rasterio_open : Rasterio) (proj : Pyproj)
  (lats lons : list R) (dataset : Dataset) (interpolation : string)
  (nt_lats nt_lons : list R) :
  let paths := dataset.(location_paths) lats lons in
  let nt := indices_of None paths in
  let fill := dataset.(missing_tile_elevations) nt_lats nt_lons in
  Forall2 (fun j v => nth_error lats j = Some v) nt nt_lats ->
  Forall2 (fun j v => nth_error lons j = Some v) nt nt_lons ->
  length fill = length nt ->
  In None fill ->
  exists k j lat lon,
    nth_error fill k = Some None /\
    (forall k', k' < k -> nth_error fill k' <> Some None) /\
    nth_error nt k = Some j /\
    nth_error lats j = Some lat /\ nth_error lons j = Some lon /\
    get_elevation rasterio_open proj lats lons dataset interpolation
    = Err (InputError (OutsideDatasetBounds lat lon)).
Proof.
  intros paths nt fill H1 H2 Hlen Hin.
  destruct (index_none_first fill Hin) as (k & Hk1 & Hk2 & Hk3).
  assert (Hk : k < length nt).
  { rewrite <- Hlen. apply nth_error_Some. congruence. }
  destruct (nth_error nt k) as [j|] eqn:Ej; [|apply nth_error_None in Ej; lia].
  destruct (nth_error nt_lats k) as [lat|] eqn:El;
    [|apply nth_error_None in El; rewrite <- (Forall2_length H1) in El; lia].
  destruct (nth_error nt_lons k) as [lon|] eqn:En;
    [|apply nth_error_None in En; rewrite <- (Forall2_length H2) in En; lia].
  exists k, j, lat, lon.
  split; [exact Hk2|]. split; [exact Hk3|]. split; [exact Ej|].
  split; [exact (Forall2_nth_error _ _ _ _ _ _ H1 Ej El)|].
  split; [exact (Forall2_nth_error _ _ _ _ _ _ H2 Ej En)|].
  subst paths fill.
  unfold get_elevation, check_missing. rewrite group_by_path_get. fold nt.
  destruct nt as [|n0 rest]; [simpl in Hk; lia|].
  rewrite (take_indices_Forall2 _ _ _ H1), (take_indices_Forall2 _ _ _ H2). simpl.
  rewrite Hk1. simpl. unfold getitem. rewrite El, En. reflexivity.
Qed.

(** C3: when [get_elevation] returns, the result has one slot per input
    point, the indices are split into groups that cover each index exactly
    once, and slot [i] holds the [k]-th value of its group, [k] being the
    position of [i] in the group: the tile sampler's result for a tile, the
    fill value for the no-tile group. *)
Theorem get_elevation_merge_in_order (rasterio_open : Rasterio) (proj : Pyproj)
  (lats lons : list R) (dataset : Dataset) (interpolation : string)
  (out : list (option R)) :
  length (dataset.(location_paths) lats lons) = length lats ->
  get_elevation rasterio_open proj lats lons dataset interpolation = Ok out ->
  length out = length lats /\
  Permutation (concat (map snd (group_by_path (dataset.(location_paths) lats lons))))
              (seq 0 (length lats)) /\
  forall i, i < length lats ->
    exists p k glats glons vals v,
      nth_error (dataset.(location_paths) lats lons) i = Some p /\
      nth_error (indices_of p (dataset.(location_paths) lats lons)) k = Some i /\
      @take_indices R R lats (indices_of p (dataset.(location_paths) lats lons)) = Ok glats /\
      @take_indices R R lons (indices_of p (dataset.(location_paths) lats lons)) = Ok glons /\
      group_values rasterio_open proj dataset interpolation p glats glons = Ok vals /\
      nth_error vals k = Some (Some v) /\
      nth_error out i = Some (Some v).
Proof.
  intros Hlen Hge.
  remember (dataset.(location_paths) lats lons) as paths eqn:Ep.
  unfold get_elevation in Hge. rewrite <- Ep in Hge.
  destruct (check_missing dataset lats lons (group_by_path paths) []) as [E0|] eqn:E1;
    cbn [bind] in Hge; [|discriminate].
  destruct (batch_by_path rasterio_open proj lats lons interpolation (group_by_path paths) E0)
    as [E|] eqn:E2; cbn [bind] in Hge; [|discriminate].
  destruct (check_missing_ok rasterio_open proj interpolation dataset lats lons paths E0 E1)
    as (C1 & C2 & C3).
  unfold batch_by_path in E2.
  destruct (batch_spec rasterio_open proj lats lons dataset interpolation _ _ _ _ E2)
    as (B1 & B2 & B3).
  unfold put_back in Hge.
  assert (HG : forall k, NoDup (dd_get k (group_by_path paths))).
  { intros k. rewrite dd_get_group_by_path. apply NoDup_indices_of. }
  assert (Hdis : forall k1 k2 i, In i (dd_get k1 (group_by_path paths)) ->
                 In i (dd_get k2 (group_by_path paths)) -> k1 = k2).
  { intros k1 k2 i. rewrite !dd_get_group_by_path, !In_indices_of. congruence. }
  destruct (merge_spec (fun k => dd_get k (group_by_path paths)) E _ _ Hge (B1 C1) HG Hdis)
    as (M1 & _ & M3).
  split; [rewrite M1, repeat_length; exact Hlen|].
  split; [rewrite <- Hlen; apply group_by_path_partition|].
  intros i Hi.
  destruct (nth_error paths i) as [p|] eqn:Epi; [|apply nth_error_None in Epi; lia].
  assert (Hin_i : In i (indices_of p paths)) by (apply In_indices_of; exact Epi).
  destruct (In_nth_error _ _ Hin_i) as [k Hk].
  assert (Hk' : nth_error (dd_get p (group_by_path paths)) k = Some i)
    by (rewrite dd_get_group_by_path; exact Hk).
  destruct p as [path|].
  - assert (Hkey : In (Some path) (map fst (group_by_path paths))).
    { assert (Hd : dict_get (Some path) (group_by_path paths) = Some (indices_of (Some path) paths)).
      { rewrite group_by_path_get. destruct (indices_of (Some path) paths);
          [destruct Hin_i | reflexivity]. }
      apply dict_get_In in Hd. apply (in_map fst) in Hd. exact Hd. }
    destruct (B2 path Hkey) as (bl & bn & vals & Hbl & Hbn & Hgv & Hget).
    rewrite dd_get_group_by_path in Hbl, Hbn.
    destruct (M3 (Some path) vals k i (dict_get_In _ _ _ Hget) Hk') as (v & Hv1 & Hv2).
    unfold group_values in Hgv.
    destruct (_get_elevation_from_path rasterio_open proj bl bn path interpolation)
      as [zs|] eqn:Ez; cbn [bind] in Hgv; [|discriminate].
    injection Hgv as <-. rewrite nth_error_map in Hv1.
    destruct (nth_error zs k) as [w|] eqn:Ew; [|discriminate]. injection Hv1 as <-.
    exists (Some path), k, bl, bn, (map Some zs), w.
    repeat split; try assumption.
    + unfold group_values. rewrite Ez. reflexivity.
    + rewrite nth_error_map, Ew. reflexivity.
  - destruct (C3 (nth_error_In _ _ Epi)) as (bl & bn & vals & Hbl & Hbn & Hgv & Hnone & Hget).
    rewrite <- B3 in Hget by (left; reflexivity).
    destruct (M3 None vals k i (dict_get_In _ _ _ Hget) Hk') as (v & Hv1 & Hv2).
    destruct (index_none_None vals k v Hnone Hv1) as [w ->].
    exists None, k, bl, bn, vals, w. repeat split; assumption.
Qed.

End Orchestrator.

Example get_elevation_mixed_batch :
  get_elevation test_open test_proj [fz 1; fz (-1); fz 2] [fz 0; fz 0; fz 0]
    (test_dataset (Some (fz 0))) "nearest"
  = Ok [Some (fz 7); Some (fz 0); Some (fz 7)].
Proof. vm_compute. reflexivity. Qed.

(** ** Witnesses: each theorem with hypotheses, at a concrete input *)

Lemma validate_ok_iff_inset_bounds_witness :
  (forall a : Q, le a a = true) /\
  le (inset_x_min q_bounds q_res) (inset_x_max q_bounds q_res) = true /\
  le (inset_y_min q_bounds q_res) (inset_y_max q_bounds q_res) = true /\
  _validate_points_lie_within_raster
    [inset_x_min q_bounds q_res; inset_x_max q_bounds q_res]
    [inset_y_min q_bounds q_res; inset_y_max q_bounds q_res]
    [] [] q_bounds q_res = Ok tt.
Proof.
  assert (Hrefl : forall a : Q, le a a = true).
  { intros a. apply Qle_bool_iff, Qle_refl. }
  split; [exact Hrefl|]. split; [reflexivity|]. split; [reflexivity|].
  apply (proj2 (validate_ok_iff_inset_bounds _ _ [] [] q_bounds q_res));
    [exact Hrefl | reflexivity | reflexivity | |].
  - constructor; [left; reflexivity | constructor; [right; reflexivity | constructor]].
  - constructor; [left; reflexivity | constructor; [right; reflexivity | constructor]].
Defined.

Lemma validate_latitude_reported_first_witness :
  length [fz 0; fz 100] = length [fz 0; fz 100] /\
  length [fz 0; fz 200] = length [fz 0; fz 100] /\
  Exists (fun y => y_in test_bounds test_res y = false) [fz 0; fz 100] /\
  Exists (fun x => x_in test_bounds test_res x = false) [fz 0; fz 200] /\
  exists lat lon,
    _validate_points_lie_within_raster [fz 0; fz 200] [fz 0; fz 100]
      [fz 0; fz 100] [fz 0; fz 200] test_bounds test_res
    = Err (InputError (LatitudeOutside lat lon)).
Proof.
  assert (Hy : Exists (fun y => y_in test_bounds test_res y = false) [fz 0; fz 100])
    by (apply Exists_cons_tl, Exists_cons_hd; reflexivity).
  assert (Hx : Exists (fun x => x_in test_bounds test_res x = false) [fz 0; fz 200])
    by (apply Exists_cons_tl, Exists_cons_hd; reflexivity).
  split; [reflexivity|]. split; [reflexivity|]. split; [exact Hy|]. split; [exact Hx|].
  apply validate_latitude_reported_first; [reflexivity | reflexivity | exact Hy | exact Hx].
Defined.

Lemma validate_outcome_independent_of_latlons_witness :
  length [fz 0; fz 100] = length [fz 0; fz 200] /\
  length [fz 0; fz 100] = length [fz 0; fz 200] /\
  length [fz 0; fz 200] = length [fz 0; fz 200] /\
  length [fz 5; fz 6] = length [fz 0; fz 200] /\
  length [fz 7; fz 8] = length [fz 0; fz 200] /\
  outcome (_validate_points_lie_within_raster [fz 0; fz 200] [fz 0; fz 100]
             [fz 0; fz 100] [fz 0; fz 200] test_bounds test_res) =
  outcome (_validate_points_lie_within_raster [fz 0; fz 200] [fz 0; fz 100]
             [fz 5; fz 6] [fz 7; fz 8] test_bounds test_res) /\
  outcome (_validate_points_lie_within_raster [fz 0; fz 200] [fz 0; fz 100]
             [fz 0; fz 100] [fz 0; fz 200] test_bounds test_res) <> RaisesOther.
Proof.
  do 5 (split; [reflexivity|]).
  apply validate_outcome_independent_of_latlons; reflexivity.
Defined.

Lemma unknown_interpolation_read_raises_witness :
  "lanczos"%string <> "nearest"%string /\ "lanczos"%string <> "bilinear"%string /\
  "lanczos"%string <> "cubic"%string /\
  test_open "tile_a"%string = Some tile_a /\
  (forall row col, tile_a.(read) None row col = None) /\
  _get_elevation_from_path test_open test_proj [fz 10] [fz 0] "tile_a" "nearest" = Ok [fz 7] /\
  [fz 7] <> [] /\
  INTERPOLATION_METHODS_get "lanczos" = None /\
  _get_elevation_from_path test_open test_proj [fz 10] [fz 0] "tile_a" "lanczos"
    = sample_tile tile_a test_proj [fz 10] [fz 0] None /\
  _get_elevation_from_path test_open test_proj [fz 10] [fz 0] "tile_a" "lanczos"
    = Err RasterioError.
Proof.
  assert (H1 : "lanczos"%string <> "nearest"%string) by discriminate.
  assert (H2 : "lanczos"%string <> "bilinear"%string) by discriminate.
  assert (H3 : "lanczos"%string <> "cubic"%string) by discriminate.
  assert (H4 : test_open "tile_a"%string = Some tile_a) by reflexivity.
  assert (H5 : forall row col, tile_a.(read) None row col = None) by reflexivity.
  assert (H6 : _get_elevation_from_path test_open test_proj [fz 10] [fz 0] "tile_a" "nearest"
               = Ok [fz 7]) by (vm_compute; reflexivity).
  assert (H7 : [fz 7] <> []) by discriminate.
  do 7 (split; [assumption|]).
  exact (unknown_interpolation_read_raises "lanczos" test_open test_proj _ _ _ tile_a _
           H1 H2 H3 H4 H5 H6 H7).
Defined.

Lemma get_elevation_empty_batch_witness :
  (test_dataset None).(location_paths) [] [] = [] /\
  get_elevation test_open test_proj [] [] (test_dataset None) "nearest" = Ok [].
Proof.
  split; [reflexivity|].
  apply get_elevation_empty_batch. reflexivity.
Defined.

Lemma get_elevation_outside_dataset_witness :
  let lats := [fz 1; fz (-1)] in
  let lons := [fz 0; fz 5] in
  let paths := (test_dataset None).(location_paths) lats lons in
  let nt := indices_of None paths in
  let fill := (test_dataset None).(missing_tile_elevations) [fz (-1)] [fz 5] in
  Forall2 (fun j v => nth_error lats j = Some v) nt [fz (-1)] /\
  Forall2 (fun j v => nth_error lons j = Some v) nt [fz 5] /\
  length fill = length nt /\ In None fill /\
  exists k j lat lon,
    nth_error fill k = Some None /\
    (forall k', k' < k -> nth_error fill k' <> Some None) /\
    nth_error nt k = Some j /\
    nth_error lats j = Some lat /\ nth_error lons j = Some lon /\
    get_elevation test_open test_proj lats lons (test_dataset None) "nearest"
    = Err (InputError (OutsideDatasetBounds lat lon)).
Proof.
  intros lats lons paths nt fill.
  assert (H1 : Forall2 (fun j v => nth_error lats j = Some v) nt [fz (-1)])
    by (vm_compute; repeat constructor).
  assert (H2 : Forall2 (fun j v => nth_error lons j = Some v) nt [fz 5])
    by (vm_compute; repeat constructor).
  assert (H3 : length fill = length nt) by (vm_compute; reflexivity).
  assert (H4 : In None fill) by (vm_compute; left; reflexivity).
  split; [exact H1|]. split; [exact H2|]. split; [exact H3|]. split; [exact H4|].
  exact (get_elevation_outside_dataset test_open test_proj lats lons (test_dataset None)
           "nearest" [fz (-1)] [fz 5] H1 H2 H3 H4).
Defined.

Lemma get_elevation_merge_in_order_witness :
  let lats := [fz 1; fz (-1); fz 2] in
  let lons := [fz 0; fz 0; fz 0] in
  let ds := test_dataset (Some (fz 0)) in
  let out := [Some (fz 7); Some (fz 0); Some (fz 7)] in
  length (ds.(location_paths) lats lons) = length lats /\
  get_elevation test_open test_proj lats lons ds "nearest" = Ok out /\
  length out = length lats /\
  Permutation (concat (map snd (group_by_path (ds.(location_paths) lats lons))))
              (seq 0 (length lats)) /\
  forall i, i < length lats ->
    exists p k glats glons vals v,
      nth_error (ds.(location_paths) lats lons) i = Some p /\
      nth_error (indices_of p (ds.(location_paths) lats lons)) k = Some i /\
      @take_indices FQ FQ lats (indices_of p (ds.(location_paths) lats lons)) = Ok glats /\
      @take_indices FQ FQ lons (indices_of p (ds.(location_paths) lats lons)) = Ok glons /\
      group_values test_open test_proj ds "nearest" p glats glons = Ok vals /\
      nth_error vals k = Some (Some v) /\
      nth_error out i = Some (Some v).
Proof.
  intros lats lons ds out.
  assert (H1 : length (ds.(location_paths) lats lons) = length lats) by reflexivity.
  assert (H2 : get_elevation test_open test_proj lats lons ds "nearest" = Ok out)
    by (vm_compute; reflexivity).
  split; [exact H1|]. split; [exact H2|].
  exact (get_elevation_merge_in_order test_open test_proj lats lons ds "nearest" out H1 H2).
Defined.

(** ** Further properties of the module *)

Section ExtraHelpers.
Context {R : Type} `{Num R}.

Lemma Forall2_nth_error_app {A} (pre l : list A) :
  Forall2 (fun j v => nth_error (pre ++ l) j = Some v) (seq (length pre) (length l)) l.
Proof.
  revert pre. induction l as [|x l IH]; intros pre; simpl; constructor.
  - rewrite nth_error_app2, Nat.sub_diag by lia. reflexivity.
  - specialize (IH (pre ++ [x])). rewrite length_app, <- app_assoc in IH.
    simpl in IH. rewrite Nat.add_1_r in IH. exact IH.
Qed.

(** [arr[list(range(len(arr)))]] is [arr]. *)
Lemma take_indices_all {A} (l : list A) :
  @take_indices R A l (seq 0 (length l)) = Ok l.
Proof. apply take_indices_Forall2. exact (Forall2_nth_error_app [] l). Qed.

Lemma setitem_ok {A} (l : list A) (i : nat) (v : A) :
  i < length l -> exists l', @setitem R A l i v = Ok l'.
Proof.
  revert i. induction l as [|x t IH]; intros i Hi; simpl in Hi; [lia|].
  destruct i as [|i]; simpl; [now eexists|].
  destruct (IH i ltac:(lia)) as [t' ->]. now eexists.
Qed.

Lemma scatter_ok {A} (pe : list A) (g : list nat) (s : nat) (el : list A) :
  s + length g <= length pe -> (forall i, In i g -> i < length el) ->
  exists el',
    for_loop (fun (el : list A) '(i_path, i_original) =>
                let* v := @getitem R A pe i_path in setitem el i_original v)
             (combine (seq s (length g)) g) el = Ok el'.
Proof.
  revert s el. induction g as [|i0 g IH]; intros s el Hpe Hg; simpl; [now eexists|].
  simpl in Hpe. unfold getitem at 1.
  destruct (nth_error pe s) as [v0|] eqn:E; [|apply nth_error_None in E; lia]. simpl.
  destruct (@setitem_ok A el i0 v0) as [el1 Hel1]; [apply Hg; now left|].
  rewrite Hel1. simpl. destruct (setitem_spec _ _ _ _ Hel1) as (L & _ & _).
  apply IH; [lia|]. intros i Hi. rewrite L. apply Hg. now right.
Qed.

Lemma filter_all_true {A} (f : A -> bool) (l : list A) :
  (forall x, In x l -> f x = true) -> filter f l = l.
Proof.
  induction l as [|x l IH]; simpl; intros Hf; [reflexivity|].
  rewrite (Hf x (or_introl eq_refl)), IH; [reflexivity|]. intros y Hy. apply Hf. now right.
Qed.

Lemma indices_of_repeat (k : Key) (n : nat) : indices_of k (repeat k n) = seq 0 n.
Proof.
  unfold indices_of. rewrite repeat_length. apply filter_all_true.
  intros j Hj. apply in_seq in Hj. rewrite nth_error_repeat by lia. apply key_eqb_refl.
Qed.

Lemma indices_of_repeat_other (k k' : Key) (n : nat) :
  k' <> k -> indices_of k' (repeat k n) = [].
Proof.
  intros Hk. destruct (indices_of k' (repeat k n)) as [|j rest] eqn:E; [reflexivity|].
  assert (Hj : In j (indices_of k' (repeat k n))) by (rewrite E; now left).
  apply In_indices_of in Hj. apply nth_error_In, repeat_spec in Hj. congruence.
Qed.

Lemma group_by_path_repeat (k : Key) (n : nat) :
  group_by_path (repeat k (S n)) = [(k, seq 0 (S n))].
Proof.
  induction n as [|n IH]; [reflexivity|].
  change (repeat k (S (S n))) with (k :: repeat k (S n)).
  rewrite repeat_cons, group_by_path_snoc, IH, repeat_length. simpl.
  rewrite key_eqb_refl. do 3 f_equal. change (seq 1 n ++ [S n] = seq 1 (S n)). rewrite seq_S. reflexivity.
Qed.

(** Scattering one group that covers every index gives back its values. *)
Lemma put_back_one_group (k : Key) (vals : list (option R)) (n : nat) :
  length vals = n ->
  put_back (repeat k n) (group_by_path (repeat k n)) [(k, vals)] = Ok vals.
Proof.
  intros Hl. unfold put_back. simpl.
  rewrite dd_get_group_by_path, indices_of_repeat, repeat_length.
  unfold enumerate.
  destruct (@scatter_ok (option R) vals (seq 0 n) 0 (repeat None n)) as [el' Hel'].
  { rewrite length_seq. lia. }
  { intros i Hi. apply in_seq in Hi. rewrite repeat_length. lia. }
  rewrite Hel'. simpl. f_equal.
  destruct (scatter_spec _ _ _ _ _ Hel') as (L & _ & V).
  rewrite repeat_length in L.
  apply nth_error_ext. intros i.
  destruct (Nat.lt_ge_cases i n) as [Hi|Hi].
  - assert (Hs : nth_error (seq 0 n) i = Some i) by (rewrite nth_error_seq;
      destruct (Nat.ltb_spec i n); [reflexivity | lia]).
    destruct (V (seq_NoDup n 0) i i Hs) as (v & Hv1 & Hv2). simpl in Hv1.
    congruence.
  - rewrite !(proj2 (nth_error_None _ _)) by lia. reflexivity.
Qed.

End ExtraHelpers.

Section ExtraLemmas.
Context {R : Type} `{Num R}.

Lemma first_true_some (l : list bool) (i : nat) :
  first_true l = Some i ->
  nth_error l i = Some true /\ forall j, j < i -> nth_error l j = Some false.
Proof.
  revert i. induction l as [|b l IH]; simpl; intros i Hi; [discriminate|].
  destruct b.
  - injection Hi as <-. split; [reflexivity | intros j Hj; lia].
  - destruct (first_true l) as [i'|]; simpl in Hi; [|discriminate].
    injection Hi as <-. destruct (IH i' eq_refl) as [H1 H2].
    split; [exact H1|]. intros [|j] Hj; [reflexivity|]. apply H2. lia.
Qed.

Lemma first_true_none (l : list bool) :
  first_true l = None -> Forall (fun b => b = false) l.
Proof.
  induction l as [|b l IH]; simpl; intros Hn; [constructor|].
  destruct b; [discriminate|].
  destruct (first_true l); simpl in Hn; [discriminate|]. constructor; auto.
Qed.

(** What [np.argmax] picks on a mask with a [False] entry: index 0 when
    every entry is [False], else the first [True] entry. *)
Lemma argmax_mask {A} (f : A -> bool) (l : list A) :
  py_all (map f l) = false ->
  exists j, @argmax R (map f l) = Ok j /\ j < length l /\
    ((j = 0 /\ Forall (fun a => f a = false) l) \/
     (exists a, nth_error l j = Some a /\ f a = true /\
        forall j' a', j' < j -> nth_error l j' = Some a' -> f a' = false)).
Proof.
  intros Hall. destruct (@argmax_in_range R _ Hall) as [j [Hj Hlt]].
  rewrite length_map in Hlt. exists j. split; [exact Hj|]. split; [exact Hlt|].
  assert (Hj' : j = match first_true (map f l) with Some i => i | None => 0 end).
  { destruct (map f l); [discriminate|]. now injection Hj as <-. }
  destruct (first_true (map f l)) as [i|] eqn:Ef; subst j.
  - right. destruct (first_true_some _ _ Ef) as [H1 H2].
    rewrite nth_error_map in H1. destruct (nth_error l i) as [a|] eqn:Ea;
      [|discriminate].
    injection H1 as H1. exists a. split; [reflexivity|]. split; [exact H1|].
    intros j' a' Hj' Ha'. specialize (H2 j' Hj'). rewrite nth_error_map, Ha' in H2.
    now injection H2.
  - left. split; [reflexivity|]. apply first_true_none in Ef.
    apply Forall_map in Ef. exact Ef.
Qed.

Lemma reproject_length (proj : Pyproj) (lats lons xs ys : list R) (epsg : Z) :
  length lons = length lats -> _reproject_latlons proj lats lons epsg = Ok (xs, ys) ->
  length xs = length lats /\ length ys = length lats.
Proof.
  intros Hl. unfold _reproject_latlons.
  destruct (_ =? _)%Z; [intros [= <- <-]; auto|].
  destruct (negb _); [discriminate|]. destruct (proj epsg); [|discriminate].
  intros [= <- <-]. rewrite !length_map, length_combine. lia.
Qed.

Lemma sample_tile_length (f : Raster) (proj : Pyproj) (lats lons : list R)
  (k : option Resampling) (zs : list R) :
  length lons = length lats -> sample_tile f proj lats lons k = Ok zs ->
  length zs = length lats.
Proof.
  intros Hl Hs. unfold sample_tile in Hs.
  destruct (crs_epsg f) as [epsg|]; cbn [bind] in Hs; [|discriminate].
  destruct (_reproject_latlons proj lats lons epsg) as [[xs ys]|e] eqn:E;
    cbn [bind] in Hs; [|discriminate].
  destruct (reproject_length _ _ _ _ _ _ Hl E) as [Lx Ly].
  destruct (_validate_points_lie_within_raster xs ys lats lons (bounds f) (res f));
    cbn [bind] in Hs; [|discriminate].
  rewrite read_points_loop in Hs. apply read_loop_length in Hs.
  rewrite Hs. simpl. repeat rewrite ?length_map, ?length_combine. lia.
Qed.

Lemma In_keys_group_by_path (paths : list Key) (k : Key) :
  In k paths -> In k (map fst (group_by_path paths)).
Proof.
  intros Hk. apply In_nth_error in Hk as [j Hj].
  apply In_indices_of in Hj.
  assert (Hd : dict_get k (group_by_path paths) = Some (indices_of k paths)).
  { rewrite group_by_path_get. destruct (indices_of k paths); [destruct Hj|reflexivity]. }
  apply dict_get_In in Hd. exact (in_map fst _ _ Hd).
Qed.

Lemma index_none_not_In (l : list (option R)) : ~ In None l -> index_none l = None.
Proof.
  induction l as [|[v|] l IH]; simpl; intros Hn; [reflexivity| |].
  - rewrite IH; [reflexivity|]. intros Hin. apply Hn. now right.
  - exfalso. apply Hn. now left.
Qed.

End ExtraLemmas.

Section Extras.
Context {R : Type} `{Num R}.

(** X1: [_get_elevation_from_path] returns one elevation per query point. *)
Theorem sampler_one_value_per_point (rasterio_open : Rasterio) (proj : Pyproj)
  (lats lons : list R) (path name : string) (zs : list R) :
  length lons = length lats ->
  _get_elevation_from_path rasterio_open proj lats lons path name = Ok zs ->
  length zs = length lats.
Proof.
  intros Hl Hs. unfold _get_elevation_from_path in Hs.
  destruct (rasterio_open path) as [f|]; [|discriminate].
  exact (sample_tile_length f proj lats lons _ zs Hl Hs).
Qed.

(** X2: on a file in EPSG:4326, [_get_elevation_from_path] raises
    [InputError] exactly when some latitude or longitude lies outside the
    file's half-pixel-inset extent; when all lie inside and the file's reads
    with the resolved kernel do not raise, it returns. *)
Theorem sampler_wgs84_outcome (rasterio_open : Rasterio) (proj : Pyproj)
  (lats lons : list R) (path name : string) (f : Raster) :
  rasterio_open path = Some f -> f.(crs_epsg) = Some 4326%Z -> length lons = length lats ->
  (outcome (_get_elevation_from_path rasterio_open proj lats lons path name) = RaisesInputError
   <-> py_all (map (y_in f.(bounds) f.(res)) lats)
       && py_all (map (x_in f.(bounds) f.(res)) lons) = false) /\
  ((forall row col, f.(read) (INTERPOLATION_METHODS_get name) row col <> None) ->
   py_all (map (y_in f.(bounds) f.(res)) lats)
   && py_all (map (x_in f.(bounds) f.(res)) lons) = true ->
   outcome (_get_elevation_from_path rasterio_open proj lats lons path name) = Returns).
Proof.
  intros Ho He Hl. unfold _get_elevation_from_path. rewrite Ho.
  unfold sample_tile. rewrite He. unfold _reproject_latlons, WGS84_LATLON_EPSG.
  rewrite Z.eqb_refl. cbn [bind].
  pose proof (validate_outcome lons lats lats lons (bounds f) (res f)) as Hv.
  destruct (_validate_points_lie_within_raster lons lats lats lons (bounds f) (res f))
    as [u|e]; cbn [bind]; specialize (Hv ltac:(lia) ltac:(lia) ltac:(lia) ltac:(lia));
    destruct (py_all (map (y_in (bounds f) (res f)) lats)
              && py_all (map (x_in (bounds f) (res f)) lons));
    simpl in Hv.
  - rewrite read_points_loop.
    set (k := INTERPOLATION_METHODS_get name).
    set (l := combine _ _).
    assert (Hne : outcome (for_loop (read_step f k) l []) <> RaisesInputError).
    { destruct (for_loop _ _ _) as [out|e] eqn:E; [discriminate|].
      apply read_loop_error in E as ->. discriminate. }
    split; [split; [intros Hc; exfalso; exact (Hne Hc) | discriminate]|].
    intros Hr _. destruct (read_loop_ok f k l [] Hr) as [out ->]. reflexivity.
  - discriminate.
  - exfalso. destruct e; discriminate.
  - split; [split; intros _; [reflexivity | exact Hv] | intros _ Hc; discriminate].
Qed.

(** X3: when some [y] fails the latitude test, the point quoted in the
    latitude [InputError] is point 0 if every [y] fails it, and otherwise
    the first point whose [y] PASSES it ([np.argmax] of the in-bounds
    mask). *)
Theorem validate_latitude_quoted_index xs ys lats lons (b : BoundingBox) (rs : R * R) :
  length lats = length ys -> length lons = length ys ->
  Exists (fun y => y_in b rs y = false) ys ->
  exists j lat lon,
    nth_error lats j = Some lat /\ nth_error lons j = Some lon /\
    _validate_points_lie_within_raster xs ys lats lons b rs
      = Err (InputError (LatitudeOutside lat lon)) /\
    ((j = 0 /\ Forall (fun y => y_in b rs y = false) ys) \/
     (exists y, nth_error ys j = Some y /\ y_in b rs y = true /\
        forall j' y', j' < j -> nth_error ys j' = Some y' -> y_in b rs y' = false)).
Proof.
  intros Hlat Hlon Hy. rewrite validate_unfold.
  apply py_all_map_false in Hy. rewrite Hy. simpl.
  destruct (@argmax_mask R _ _ _ Hy) as (j & -> & Hj & Hwhich). simpl.
  destruct (@getitem_in_range R _ lats j) as [lat Elat]; [lia|].
  destruct (@getitem_in_range R _ lons j) as [lon Elon]; [lia|].
  rewrite Elat, Elon. exists j, lat, lon.
  unfold getitem in Elat, Elon.
  destruct (nth_error lats j); [injection Elat as ->|discriminate].
  destruct (nth_error lons j); [injection Elon as ->|discriminate].
  repeat split; auto.
Qed.

(** X4: when every [y] passes and some [x] fails the longitude test, the
    longitude [InputError] quotes point 0 if every [x] fails it, and
    otherwise the first point whose [x] PASSES it. *)
Theorem validate_longitude_quoted_index xs ys lats lons (b : BoundingBox) (rs : R * R) :
  length lats = length xs -> length lons = length xs ->
  Forall (fun y => y_in b rs y = true) ys ->
  Exists (fun x => x_in b rs x = false) xs ->
  exists j lat lon,
    nth_error lats j = Some lat /\ nth_error lons j = Some lon /\
    _validate_points_lie_within_raster xs ys lats lons b rs
      = Err (InputError (LongitudeOutside lat lon)) /\
    ((j = 0 /\ Forall (fun x => x_in b rs x = false) xs) \/
     (exists x, nth_error xs j = Some x /\ x_in b rs x = true /\
        forall j' x', j' < j -> nth_error xs j' = Some x' -> x_in b rs x' = false)).
Proof.
  intros Hlat Hlon Hy Hx. rewrite validate_unfold.
  apply py_all_map in Hy. apply py_all_map_false in Hx. rewrite Hy, Hx. simpl.
  destruct (@argmax_mask R _ _ _ Hx) as (j & -> & Hj & Hwhich). simpl.
  destruct (@getitem_in_range R _ lats j) as [lat Elat]; [lia|].
  destruct (@getitem_in_range R _ lons j) as [lon Elon]; [lia|].
  rewrite Elat, Elon. exists j, lat, lon.
  unfold getitem in Elat, Elon.
  destruct (nth_error lats j); [injection Elat as ->|discriminate].
  destruct (nth_error lons j); [injection Elon as ->|discriminate].
  repeat split; auto.
Qed.

End Extras.

Section ExtrasOrchestrator.
Context {R : Type} `{Num R}.

(** X5: when the dataset routes every point to the same tile,
    [get_elevation] returns exactly what [_get_elevation_from_path] returns
    for the whole batch on that tile. *)
Theorem get_elevation_single_tile (rasterio_open : Rasterio) (proj : Pyproj)
  (lats lons : list R) (dataset : Dataset) (interpolation path : string) (zs : list R) :
  dataset.(location_paths) lats lons = repeat (Some path) (length lats) ->
  length lons = length lats ->
  _get_elevation_from_path rasterio_open proj lats lons path interpolation = Ok zs ->
  get_elevation rasterio_open proj lats lons dataset interpolation = Ok (map Some zs).
Proof.
  intros Hp Hl Hz.
  assert (Lz : length zs = length lats).
  { unfold _get_elevation_from_path in Hz.
    destruct (rasterio_open path) as [f|]; [|discriminate].
    exact (sample_tile_length f proj lats lons _ zs Hl Hz). }
  unfold get_elevation. cbv zeta. rewrite Hp.
  assert (Hcm : check_missing dataset lats lons
                  (group_by_path (repeat (Some path) (length lats))) [] = Ok []).
  { unfold check_missing. rewrite group_by_path_get, indices_of_repeat_other
      by discriminate. reflexivity. }
  rewrite Hcm. cbn [bind].
  assert (Hbb : batch_by_path rasterio_open proj lats lons interpolation
                  (group_by_path (repeat (Some path) (length lats))) []
                = Ok (if length lats =? 0 then [] else [(Some path, map Some zs)])).
  { destruct (length lats) as [|m] eqn:Hn; [reflexivity|].
    unfold batch_by_path. rewrite group_by_path_repeat.
    cbn [for_loop]. unfold dd_get. cbn [dict_get key_eqb]. rewrite String.eqb_refl.
    replace (seq 0 (S m)) with (seq 0 (length lats)) by now rewrite Hn.
    rewrite take_indices_all. cbn [bind].
    replace (seq 0 (length lats)) with (seq 0 (length lons)) by now rewrite Hn, Hl.
    rewrite take_indices_all. cbn [bind]. rewrite Hz. reflexivity. }
  rewrite Hbb. cbn [bind].
  destruct (length lats) as [|m] eqn:Hn.
  - destruct zs; [reflexivity | simpl in Lz; lia].
  - apply put_back_one_group. rewrite length_map. lia.
Qed.

(** X6: when the dataset routes every point to no tile and the fill policy
    gives a value (not [None]) for each of them, [get_elevation] returns
    the fill values. *)
Theorem get_elevation_all_filled (rasterio_open : Rasterio) (proj : Pyproj)
  (lats lons : list R) (dataset : Dataset) (interpolation : string) :
  dataset.(location_paths) lats lons = repeat None (length lats) ->
  length lons = length lats ->
  length (dataset.(missing_tile_elevations) lats lons) = length lats ->
  ~ In None (dataset.(missing_tile_elevations) lats lons) ->
  get_elevation rasterio_open proj lats lons dataset interpolation
  = Ok (dataset.(missing_tile_elevations) lats lons).
Proof.
  intros Hp Hl Hf Hn.
  unfold get_elevation. cbv zeta. rewrite Hp.
  destruct (length lats) as [|m] eqn:Hlen.
  - destruct (missing_tile_elevations dataset lats lons); [reflexivity | simpl in Hf; lia].
  - assert (Hcm : check_missing dataset lats lons (group_by_path (repeat None (S m))) []
                  = Ok [(None, dataset.(missing_tile_elevations) lats lons)]).
    { unfold check_missing. rewrite group_by_path_get, indices_of_repeat.
      assert (Ta : @take_indices R R lats (0 :: seq 1 m) = Ok lats)
        by (change (0 :: seq 1 m) with (seq 0 (S m)); rewrite <- Hlen; apply take_indices_all).
      assert (Tl : @take_indices R R lons (0 :: seq 1 m) = Ok lons)
        by (change (0 :: seq 1 m) with (seq 0 (S m)); rewrite <- Hl; apply take_indices_all).
      change (seq 0 (S m)) with (0 :: seq 1 m). cbv iota beta.
      rewrite Ta. cbn [bind]. rewrite Tl. cbn [bind].
      rewrite index_none_not_In by exact Hn. reflexivity. }
    rewrite Hcm. cbn [bind].
    assert (Hbb : batch_by_path rasterio_open proj lats lons interpolation
                    (group_by_path (repeat None (S m)))
                    [(None, dataset.(missing_tile_elevations) lats lons)]
                  = Ok [(None, dataset.(missing_tile_elevations) lats lons)]).
    { unfold batch_by_path. rewrite group_by_path_repeat. reflexivity. }
    rewrite Hbb. cbn [bind]. apply put_back_one_group. exact Hf.
Qed.

(** X7: if the sampler fails on the batch of points routed to some tile,
    [get_elevation] does not return: a failure on one tile aborts the whole
    call, with no partial result. *)
Theorem get_elevation_tile_failure_aborts (rasterio_open : Rasterio) (proj : Pyproj)
  (lats lons : list R) (dataset : Dataset) (interpolation path : string)
  (bl bn : list R) (e : Exc R) :
  In (Some path) (dataset.(location_paths) lats lons) ->
  @take_indices R R lats (indices_of (Some path) (dataset.(location_paths) lats lons)) = Ok bl ->
  @take_indices R R lons (indices_of (Some path) (dataset.(location_paths) lats lons)) = Ok bn ->
  _get_elevation_from_path rasterio_open proj bl bn path interpolation = Err e ->
  forall out, get_elevation rasterio_open proj lats lons dataset interpolation <> Ok out.
Proof.
  intros Hin Hbl Hbn He out Hge.
  remember (dataset.(location_paths) lats lons) as paths eqn:Ep.
  unfold get_elevation in Hge. rewrite <- Ep in Hge.
  destruct (check_missing dataset lats lons (group_by_path paths) []) as [E0|] eqn:E1;
    cbn [bind] in Hge; [|discriminate].
  destruct (batch_by_path rasterio_open proj lats lons interpolation (group_by_path paths) E0)
    as [E|] eqn:E2; cbn [bind] in Hge; [|discriminate].
  unfold batch_by_path in E2.
  destruct (batch_spec rasterio_open proj lats lons dataset interpolation _ _ _ _ E2)
    as (_ & B2 & _).
  destruct (B2 path (In_keys_group_by_path _ _ Hin)) as (bl' & bn' & vals & H1 & H2 & Hgv & _).
  rewrite dd_get_group_by_path in H1, H2.
  rewrite Hbl in H1. rewrite Hbn in H2. injection H1 as <-. injection H2 as <-.
  unfold group_values in Hgv. rewrite He in Hgv. discriminate.
Qed.


(** Every slot of a returned result: slot [i] holds the [k]-th value of its
    group, with no hypothesis on the length of the routing. *)
Lemma get_elevation_slot (rasterio_open : Rasterio) (proj : Pyproj)
  (lats lons : list R) (dataset : Dataset) (interpolation : string)
  (out : list (option R)) :
  get_elevation rasterio_open proj lats lons dataset interpolation = Ok out ->
  length out = length (dataset.(location_paths) lats lons) /\
  forall i, i < length (dataset.(location_paths) lats lons) ->
    exists v, nth_error out i = Some (Some v).
Proof.
  intros Hge.
  remember (dataset.(location_paths) lats lons) as paths eqn:Ep.
  unfold get_elevation in Hge. rewrite <- Ep in Hge.
  destruct (check_missing dataset lats lons (group_by_path paths) []) as [E0|] eqn:E1;
    cbn [bind] in Hge; [|discriminate].
  destruct (batch_by_path rasterio_open proj lats lons interpolation (group_by_path paths) E0)
    as [E|] eqn:E2; cbn [bind] in Hge; [|discriminate].
  destruct (check_missing_ok rasterio_open proj interpolation dataset lats lons paths E0 E1)
    as (C1 & _ & C3).
  unfold batch_by_path in E2.
  destruct (batch_spec rasterio_open proj lats lons dataset interpolation _ _ _ _ E2)
    as (B1 & B2 & B3).
  unfold put_back in Hge.
  assert (HG : forall k, NoDup (dd_get k (group_by_path paths))).
  { intros k. rewrite dd_get_group_by_path. apply NoDup_indices_of. }
  assert (Hdis : forall k1 k2 i, In i (dd_get k1 (group_by_path paths)) ->
                 In i (dd_get k2 (group_by_path paths)) -> k1 = k2).
  { intros k1 k2 i. rewrite !dd_get_group_by_path, !In_indices_of. congruence. }
  destruct (merge_spec (fun k => dd_get k (group_by_path paths)) E _ _ Hge (B1 C1) HG Hdis)
    as (M1 & _ & M3).
  split; [rewrite M1, repeat_length; reflexivity|].
  intros i Hi.
  destruct (nth_error paths i) as [p|] eqn:Epi; [|apply nth_error_None in Epi; lia].
  assert (Hin_i : In i (indices_of p paths)) by (apply In_indices_of; exact Epi).
  destruct (In_nth_error _ _ Hin_i) as [k Hk].
  assert (Hk' : nth_error (dd_get p (group_by_path paths)) k = Some i)
    by (rewrite dd_get_group_by_path; exact Hk).
  destruct p as [path|].
  - assert (Hkey : In (Some path) (map fst (group_by_path paths)))
      by (apply In_keys_group_by_path, (nth_error_In _ _ Epi)).
    destruct (B2 path Hkey) as (bl & bn & vals & _ & _ & Hgv & Hget).
    destruct (M3 (Some path) vals k i (dict_get_In _ _ _ Hget) Hk') as (v & Hv1 & Hv2).
    unfold group_values in Hgv.
    destruct (_get_elevation_from_path rasterio_open proj bl bn path interpolation)
      as [zs|]; cbn [bind] in Hgv; [|discriminate].
    injection Hgv as <-. rewrite nth_error_map in Hv1.
    destruct (nth_error zs k) as [w|]; [|discriminate]. injection Hv1 as <-.
    exists w. exact Hv2.
  - destruct (C3 (nth_error_In _ _ Epi)) as (bl & bn & vals & _ & _ & _ & Hnone & Hget).
    rewrite <- B3 in Hget by (left; reflexivity).
    destruct (M3 None vals k i (dict_get_In _ _ _ Hget) Hk') as (v & Hv1 & Hv2).
    destruct (index_none_None vals k v Hnone Hv1) as [w ->].
    exists w. exact Hv2.
Qed.

(** X8: whenever [get_elevation] returns, the result has one slot per
    routed point and none of its slots is still the [None] placeholder of
    [elevations = [None] * len(paths)]: every slot is overwritten. *)
Theorem get_elevation_no_placeholder_left (rasterio_open : Rasterio) (proj : Pyproj)
  (lats lons : list R) (dataset : Dataset) (interpolation : string)
  (out : list (option R)) :
  get_elevation rasterio_open proj lats lons dataset interpolation = Ok out ->
  length out = length (dataset.(location_paths) lats lons) /\ ~ In None out.
Proof.
  intros Hge. destruct (get_elevation_slot _ _ _ _ _ _ _ Hge) as (L & S).
  split; [exact L|]. intros Hin.
  destruct (In_nth_error _ _ Hin) as [i Hi].
  assert (Hlt : i < length out) by (apply nth_error_Some; congruence).
  rewrite L in Hlt. destruct (S i Hlt) as [v Hv]. congruence.
Qed.

End ExtrasOrchestrator.

Section ExtrasBounds.
Context {R : Type} `{Num R}.

Lemma py_min_comm (a b : R) : lt a b <> lt b a -> py_min a b = py_min b a.
Proof.
  unfold py_min. destruct (lt a b), (lt b a); intros Hne; try reflexivity;
    exfalso; apply Hne; reflexivity.
Qed.

Lemma py_max_comm (a b : R) : lt a b <> lt b a -> py_max a b = py_max b a.
Proof.
  unfold py_max. destruct (lt a b), (lt b a); intros Hne; try reflexivity;
    exfalso; apply Hne; reflexivity.
Qed.

(** X9: [_validate_points_lie_within_raster] does not depend on the
    orientation of the bounding box: swapping [left] with [right] and
    [bottom] with [top] gives the same result, when each pair compares
    strictly one way ([min]/[max] pick the same corner whatever the
    order). *)
Theorem validate_bounds_orientation xs ys lats lons (b : BoundingBox) (rs : R * R) :
  lt b.(left) b.(right) <> lt b.(right) b.(left) ->
  lt b.(top) b.(bottom) <> lt b.(bottom) b.(top) ->
  _validate_points_lie_within_raster xs ys lats lons
    {| left := b.(right); bottom := b.(top); right := b.(left); top := b.(bottom) |} rs
  = _validate_points_lie_within_raster xs ys lats lons b rs.
Proof.
  intros Hx Hy. unfold _validate_points_lie_within_raster. cbn [left right top bottom].
  rewrite (py_min_comm _ _ Hx), (py_max_comm _ _ Hx),
          (py_min_comm _ _ Hy), (py_max_comm _ _ Hy).
  reflexivity.
Qed.

End ExtrasBounds.

(** ** Witnesses of the further properties *)

Lemma sampler_one_value_per_point_witness :
  length [fz 0; fz 5] = length [fz 10; fz 20] /\
  _get_elevation_from_path test_open test_proj [fz 10; fz 20] [fz 0; fz 5] "tile_a" "nearest"
    = Ok [fz 7; fz 7] /\
  length [fz 7; fz 7] = length [fz 10; fz 20].
Proof.
  assert (H1 : length [fz 0; fz 5] = length [fz 10; fz 20]) by reflexivity.
  assert (H2 : _get_elevation_from_path test_open test_proj [fz 10; fz 20] [fz 0; fz 5]
                 "tile_a" "nearest" = Ok [fz 7; fz 7]) by (vm_compute; reflexivity).
  split; [exact H1|]. split; [exact H2|].
  exact (sampler_one_value_per_point test_open test_proj _ _ _ _ _ H1 H2).
Defined.

Lemma sampler_wgs84_outcome_witness :
  test_open "tile_a"%string = Some tile_a /\ tile_a.(crs_epsg) = Some 4326%Z /\
  length [fz 0; fz 0] = length [fz 10; fz 60] /\
  (outcome (_get_elevation_from_path test_open test_proj [fz 10; fz 60] [fz 0; fz 0]
              "tile_a" "bilinear") = RaisesInputError
   <-> py_all (map (y_in tile_a.(bounds) tile_a.(res)) [fz 10; fz 60])
       && py_all (map (x_in tile_a.(bounds) tile_a.(res)) [fz 0; fz 0]) = false) /\
  ((forall row col, tile_a.(read) (INTERPOLATION_METHODS_get "bilinear") row col <> None) ->
   py_all (map (y_in tile_a.(bounds) tile_a.(res)) [fz 10; fz 60])
   && py_all (map (x_in tile_a.(bounds) tile_a.(res)) [fz 0; fz 0]) = true ->
   outcome (_get_elevation_from_path test_open test_proj [fz 10; fz 60] [fz 0; fz 0]
              "tile_a" "bilinear") = Returns).
Proof.
  assert (H1 : test_open "tile_a"%string = Some tile_a) by reflexivity.
  assert (H2 : tile_a.(crs_epsg) = Some 4326%Z) by reflexivity.
  assert (H3 : length [fz 0; fz 0] = length [fz 10; fz 60]) by reflexivity.
  split; [exact H1|]. split; [exact H2|]. split; [exact H3|].
  exact (sampler_wgs84_outcome test_open test_proj _ _ _ "bilinear" _ H1 H2 H3).
Defined.

Lemma validate_latitude_quoted_index_witness :
  length [fz 10; fz 11] = length [fz 100; fz 0] /\
  length [fz 20; fz 21] = length [fz 100; fz 0] /\
  Exists (fun y => y_in test_bounds test_res y = false) [fz 100; fz 0] /\
  exists j lat lon,
    nth_error [fz 10; fz 11] j = Some lat /\ nth_error [fz 20; fz 21] j = Some lon /\
    _validate_points_lie_within_raster [fz 0; fz 0] [fz 100; fz 0]
      [fz 10; fz 11] [fz 20; fz 21] test_bounds test_res
      = Err (InputError (LatitudeOutside lat lon)) /\
    ((j = 0 /\ Forall (fun y => y_in test_bounds test_res y = false) [fz 100; fz 0]) \/
     (exists y, nth_error [fz 100; fz 0] j = Some y /\ y_in test_bounds test_res y = true /\
        forall j' y', j' < j -> nth_error [fz 100; fz 0] j' = Some y' ->
          y_in test_bounds test_res y' = false)).
Proof.
  assert (Hy : Exists (fun y => y_in test_bounds test_res y = false) [fz 100; fz 0])
    by (apply Exists_cons_hd; reflexivity).
  split; [reflexivity|]. split; [reflexivity|]. split; [exact Hy|].
  apply validate_latitude_quoted_index; [reflexivity | reflexivity | exact Hy].
Defined.

Lemma validate_longitude_quoted_index_witness :
  length [fz 10; fz 11] = length [fz 200; fz 0] /\
  length [fz 20; fz 21] = length [fz 200; fz 0] /\
  Forall (fun y => y_in test_bounds test_res y = true) [fz 0; fz 0] /\
  Exists (fun x => x_in test_bounds test_res x = false) [fz 200; fz 0] /\
  exists j lat lon,
    nth_error [fz 10; fz 11] j = Some lat /\ nth_error [fz 20; fz 21] j = Some lon /\
    _validate_points_lie_within_raster [fz 200; fz 0] [fz 0; fz 0]
      [fz 10; fz 11] [fz 20; fz 21] test_bounds test_res
      = Err (InputError (LongitudeOutside lat lon)) /\
    ((j = 0 /\ Forall (fun x => x_in test_bounds test_res x = false) [fz 200; fz 0]) \/
     (exists x, nth_error [fz 200; fz 0] j = Some x /\ x_in test_bounds test_res x = true /\
        forall j' x', j' < j -> nth_error [fz 200; fz 0] j' = Some x' ->
          x_in test_bounds test_res x' = false)).
Proof.
  assert (Hy : Forall (fun y => y_in test_bounds test_res y = true) [fz 0; fz 0])
    by (repeat constructor).
  assert (Hx : Exists (fun x => x_in test_bounds test_res x = false) [fz 200; fz 0])
    by (apply Exists_cons_hd; reflexivity).
  split; [reflexivity|]. split; [reflexivity|]. split; [exact Hy|]. split; [exact Hx|].
  apply validate_longitude_quoted_index; [reflexivity | reflexivity | exact Hy | exact Hx].
Defined.

Lemma get_elevation_single_tile_witness :
  (test_dataset None).(location_paths) [fz 1; fz 2] [fz 0; fz 3]
    = repeat (Some "tile_a"%string) (length [fz 1; fz 2]) /\
  length [fz 0; fz 3] = length [fz 1; fz 2] /\
  _get_elevation_from_path test_open test_proj [fz 1; fz 2] [fz 0; fz 3] "tile_a" "cubic"
    = Ok [fz 7; fz 7] /\
  get_elevation test_open test_proj [fz 1; fz 2] [fz 0; fz 3] (test_dataset None) "cubic"
    = Ok (map Some [fz 7; fz 7]).
Proof.
  assert (H1 : (test_dataset None).(location_paths) [fz 1; fz 2] [fz 0; fz 3]
                 = repeat (Some "tile_a"%string) (length [fz 1; fz 2]))
    by (vm_compute; reflexivity).
  assert (H2 : length [fz 0; fz 3] = length [fz 1; fz 2]) by reflexivity.
  assert (H3 : _get_elevation_from_path test_open test_proj [fz 1; fz 2] [fz 0; fz 3]
                 "tile_a" "cubic" = Ok [fz 7; fz 7]) by (vm_compute; reflexivity).
  split; [exact H1|]. split; [exact H2|]. split; [exact H3|].
  exact (get_elevation_single_tile test_open test_proj _ _ _ _ _ _ H1 H2 H3).
Defined.

Lemma get_elevation_all_filled_witness :
  (test_dataset (Some (fz 0))).(location_paths) [fz (-1); fz (-2)] [fz 0; fz 3]
    = repeat None (length [fz (-1); fz (-2)]) /\
  length [fz 0; fz 3] = length [fz (-1); fz (-2)] /\
  length ((test_dataset (Some (fz 0))).(missing_tile_elevations) [fz (-1); fz (-2)] [fz 0; fz 3])
    = length [fz (-1); fz (-2)] /\
  ~ In None ((test_dataset (Some (fz 0))).(missing_tile_elevations)
               [fz (-1); fz (-2)] [fz 0; fz 3]) /\
  get_elevation test_open test_proj [fz (-1); fz (-2)] [fz 0; fz 3]
    (test_dataset (Some (fz 0))) "nearest"
  = Ok ((test_dataset (Some (fz 0))).(missing_tile_elevations) [fz (-1); fz (-2)] [fz 0; fz 3]).
Proof.
  assert (H1 : (test_dataset (Some (fz 0))).(location_paths) [fz (-1); fz (-2)] [fz 0; fz 3]
                 = repeat None (length [fz (-1); fz (-2)])) by (vm_compute; reflexivity).
  assert (H2 : length [fz 0; fz 3] = length [fz (-1); fz (-2)]) by reflexivity.
  assert (H3 : length ((test_dataset (Some (fz 0))).(missing_tile_elevations)
                         [fz (-1); fz (-2)] [fz 0; fz 3]) = length [fz (-1); fz (-2)])
    by reflexivity.
  assert (H4 : ~ In None ((test_dataset (Some (fz 0))).(missing_tile_elevations)
                            [fz (-1); fz (-2)] [fz 0; fz 3]))
    by (simpl; intros [Hc | [Hc | []]]; discriminate).
  split; [exact H1|]. split; [exact H2|]. split; [exact H3|]. split; [exact H4|].
  exact (get_elevation_all_filled test_open test_proj _ _ _ _ H1 H2 H3 H4).
Defined.

Lemma get_elevation_tile_failure_aborts_witness :
  let lats := [fz 100; fz (-1)] in
  let lons := [fz 0; fz 0] in
  let paths := (test_dataset (Some (fz 0))).(location_paths) lats lons in
  In (Some "tile_a"%string) paths /\
  @take_indices FQ FQ lats (indices_of (Some "tile_a"%string) paths) = Ok [fz 100] /\
  @take_indices FQ FQ lons (indices_of (Some "tile_a"%string) paths) = Ok [fz 0] /\
  _get_elevation_from_path test_open test_proj [fz 100] [fz 0] "tile_a" "nearest"
    = Err (InputError (LatitudeOutside (fz 100) (fz 0))) /\
  forall out, get_elevation test_open test_proj lats lons (test_dataset (Some (fz 0)))
                "nearest" <> Ok out.
Proof.
  intros lats lons paths.
  assert (H1 : In (Some "tile_a"%string) paths) by (vm_compute; left; reflexivity).
  assert (H2 : @take_indices FQ FQ lats (indices_of (Some "tile_a"%string) paths) = Ok [fz 100])
    by (vm_compute; reflexivity).
  assert (H3 : @take_indices FQ FQ lons (indices_of (Some "tile_a"%string) paths) = Ok [fz 0])
    by (vm_compute; reflexivity).
  assert (H4 : _get_elevation_from_path test_open test_proj [fz 100] [fz 0] "tile_a" "nearest"
                 = Err (InputError (LatitudeOutside (fz 100) (fz 0))))
    by (vm_compute; reflexivity).
  split; [exact H1|]. split; [exact H2|]. split; [exact H3|]. split; [exact H4|].
  exact (get_elevation_tile_failure_aborts test_open test_proj lats lons _ _ _ _ _ _
           H1 H2 H3 H4).
Defined.

Lemma get_elevation_no_placeholder_left_witness :
  get_elevation test_open test_proj [fz 1; fz (-1); fz 2] [fz 0; fz 0; fz 0]
    (test_dataset (Some (fz 0))) "nearest"
  = Ok [Some (fz 7); Some (fz 0); Some (fz 7)] /\
  length [Some (fz 7); Some (fz 0); Some (fz 7)]
    = length ((test_dataset (Some (fz 0))).(location_paths)
                [fz 1; fz (-1); fz 2] [fz 0; fz 0; fz 0]) /\
  ~ In None [Some (fz 7); Some (fz 0); Some (fz 7)].
Proof.
  assert (H1 : get_elevation test_open test_proj [fz 1; fz (-1); fz 2] [fz 0; fz 0; fz 0]
                 (test_dataset (Some (fz 0))) "nearest"
               = Ok [Some (fz 7); Some (fz 0); Some (fz 7)]) by (vm_compute; reflexivity).
  split; [exact H1|].
  exact (get_elevation_no_placeholder_left test_open test_proj _ _ _ _ _ H1).
Defined.

Lemma validate_bounds_orientation_witness :
  lt test_bounds.(left) test_bounds.(right) <> lt test_bounds.(right) test_bounds.(left) /\
  lt test_bounds.(top) test_bounds.(bottom) <> lt test_bounds.(bottom) test_bounds.(top) /\
  _validate_points_lie_within_raster [fz 0; fz 200] [fz 0; fz 0] [fz 0; fz 0] [fz 0; fz 200]
    {| left := test_bounds.(right); bottom := test_bounds.(top);
       right := test_bounds.(left); top := test_bounds.(bottom) |} test_res
  = _validate_points_lie_within_raster [fz 0; fz 200] [fz 0; fz 0] [fz 0; fz 0] [fz 0; fz 200]
      test_bounds test_res.
Proof.
  assert (H1 : lt test_bounds.(left) test_bounds.(right)
               <> lt test_bounds.(right) test_bounds.(left)) by (vm_compute; discriminate).
  assert (H2 : lt test_bounds.(top) test_bounds.(bottom)
               <> lt test_bounds.(bottom) test_bounds.(top)) by (vm_compute; discriminate).
  split; [exact H1|]. split; [exact H2|].
  exact (validate_bounds_orientation _ _ _ _ test_bounds test_res H1 H2).
Defined.
